(** * react-hello-copilot: the two paginated lists and the modal counter

    A shallow embedding of [src/components/PostsList.jsx],
    [src/components/CommentList.jsx] and [src/App.jsx].

    JavaScript numbers that hold page numbers, indices, lengths and counters
    are integers in every run of these components; they are modelled as [Z].
    Component state is a record, one field per [useState] cell.  An event
    handler is a computation that updates the cells, may hand a request to
    the network and may throw. *)

From Equations Require Import Equations.
From Stdlib Require Import ZArith String Ascii List Bool Lia DecimalString.
From Stdlib Require DecimalPos DecimalZ.
Import ListNotations.
Local Open Scope Z_scope.

(** ** The page-number window ([getPageNumbers]) *)

Module Pagination.

(** [const maxPagesToShow = 5] *)
Definition maxPagesToShow : Z := 5.

(** [for (let i = startPage; i <= endPage; i++) pageNumbers.push(i)],
    started at [i] with the array built so far. *)
Equations? pushPages (i endPage : Z) (pageNumbers : list Z) : list Z
  by wf (Z.to_nat (endPage + 1 - i)) lt :=
  pushPages i endPage pageNumbers with Z_le_gt_dec i endPage := {
    | left _ => pushPages (i + 1) endPage (pageNumbers ++ [i]);
    | right _ => pageNumbers }.
Proof. lia. Qed.

(** [getPageNumbers], a closure over [currentPage] and [totalPages] in both
    components (PostsList.jsx and CommentList.jsx hold the same text).
    [Math.floor (maxPagesToShow / 2)] is the integer quotient. *)
Definition getPageNumbers (currentPage totalPages : Z) : list Z :=
  let startPage := Z.max 1 (currentPage - maxPagesToShow / 2) in
  let endPage := Z.min totalPages (startPage + maxPagesToShow - 1) in
  let startPage :=
    if endPage - startPage + 1 <? maxPagesToShow
    then Z.max 1 (endPage - maxPagesToShow + 1)
    else startPage in
  pushPages startPage endPage [].

(** The closed integer range [[first, last]], empty when [last < first]. *)
Definition closed_range (first last : Z) : list Z :=
  map (fun k => first + Z.of_nat k) (seq 0 (Z.to_nat (last - first + 1))).

(** Consecutive elements differ by exactly one. *)
Fixpoint contiguous (l : list Z) : bool :=
  match l with
  | a :: (b :: _) as tl => (b =? a + 1) && contiguous tl
  | _ => true
  end.

(** The window calculator as section 4.2 of the specification words it,
    for an arbitrary window size. *)
Definition window_spec (currentPage totalPages windowSize : Z) : list Z :=
  let start := Z.max 1 (currentPage - windowSize / 2) in
  let end_ := Z.min totalPages (start + windowSize - 1) in
  let start :=
    if end_ - start + 1 <? windowSize
    then Z.max 1 (end_ - windowSize + 1)
    else start in
  closed_range start end_.

End Pagination.

(** ** JavaScript values the components rely on *)

Module Js.

(** [`${n}`] and [{n}] in JSX for an integer-valued number. *)
Definition number_to_string (n : Z) : string :=
  NilZero.string_of_int (Z.to_int n).

(** Truthiness of a cell that holds [null] or a string: [null] and the
    empty string are falsy. *)
Definition truthy (v : option string) : bool :=
  match v with
  | None => false
  | Some EmptyString => false
  | Some (String _ _) => true
  end.

(** [Math.ceil (a / b)] for integers [a] and [b > 0]. *)
Definition ceil_div (a b : Z) : Z := - ((- a) / b).

(** [Array.prototype.slice (start, end)]: a negative index counts from the
    end, both indices are clamped into [[0, length]]. *)
Definition slice {A} (l : list A) (start end_ : Z) : list A :=
  let len := Z.of_nat (length l) in
  let clamp k := if k <? 0 then Z.max (len + k) 0 else Z.min k len in
  let from := clamp start in
  let to := clamp end_ in
  firstn (Z.to_nat (to - from)) (skipn (Z.to_nat from) l).

(** [arr[k]]; [None] stands for [undefined]. *)
Definition index {A} (l : list A) (k : Z) : option A :=
  if k <? 0 then None else nth_error l (Z.to_nat k).

(** [x > y] and [x < y] where [x] may be [undefined]: a comparison with
    [undefined] is false. *)
Definition gt (x : option Z) (y : Z) : bool :=
  match x with Some a => y <? a | None => false end.
Definition lt (x : option Z) (y : Z) : bool :=
  match x with Some a => a <? y | None => false end.

End Js.

(** ** The network, as [fetch] shows it to the components *)

Module Net.

(** A GET request is determined by its URL. *)
Definition Request : Type := string.

(** What [response.json ()] settles to: the parsed value, or a rejection
    with a message. *)
Inductive Body (A : Type) : Type :=
| Parsed (data : A)
| Malformed (message : string).
Arguments Parsed {A} data.
Arguments Malformed {A} message.

Record Response (A : Type) : Type := mkResponse {
  status : Z;
  body : Body A
}.
Arguments mkResponse {A} status body.
Arguments status {A} r.
Arguments body {A} r.

(** [response.ok]: the status is in the range 200-299. *)
Definition ok {A} (r : Response A) : bool :=
  (200 <=? status r) && (status r <=? 299).

(** How the promise returned by [fetch] settles: fulfilled with a response
    (of any status), or rejected by a transport failure whose error carries
    [message]. *)
Inductive Settlement (A : Type) : Type :=
| Fulfilled (response : Response A)
| Rejected (message : string).
Arguments Fulfilled {A} response.
Arguments Rejected {A} message.

Fixpoint contains (c : ascii) (s : string) : bool :=
  match s with
  | EmptyString => false
  | String a rest => Ascii.eqb a c || contains c rest
  end.

(** The pieces of [s] between occurrences of the separator [c]. *)
Fixpoint split_on (c : ascii) (s : string) : list string :=
  match s with
  | EmptyString => [EmptyString]
  | String a rest =>
      if Ascii.eqb a c then EmptyString :: split_on c rest
      else match split_on c rest with
           | piece :: pieces => String a piece :: pieces
           | [] => [String a EmptyString]
           end
  end.

Definition key_value (piece : string) : string * string :=
  match split_on "=" piece with
  | k :: v :: _ => (k, v)
  | k :: [] => (k, EmptyString)
  | [] => (EmptyString, EmptyString)
  end.

(** The query parameters a URL carries: what follows the first [?], cut at
    each [&], each piece cut at its [=]. *)
Definition query_params (url : Request) : list (string * string) :=
  match split_on "?" url with
  | _ :: q :: _ => map key_value (split_on "&" q)
  | _ => []
  end.

End Net.

(** ** Asynchronous handlers

    A handler body is a tree: state-setter calls, then either completion
    (normal or by a thrown error, of which only [message] is ever read) or a
    [fetch] whose continuation waits for the promise to settle.  An [async]
    function runs up to its first [await] inside the event that called it;
    the continuation runs in a later event. *)

Module Async.
Import Net.

Inductive Completion (A : Type) : Type :=
| Normal (value : A)
| Thrown (message : string).
Arguments Normal {A} value.
Arguments Thrown {A} message.

Section Prog.
Context {St Data : Type}.

Inductive Prog (A : Type) : Type :=
| Done (c : Completion A)
| SetState (f : St -> St) (k : Prog A)
| Await (url : Request) (k : Settlement Data -> Prog A).
Arguments Done {A} c.
Arguments SetState {A} f k.
Arguments Await {A} url k.

Definition ret {A} (a : A) : Prog A := Done (Normal a).

(** [throw new Error (message)] *)
Definition throw {A} (message : string) : Prog A := Done (Thrown message).

Fixpoint bind {A B} (p : Prog A) (q : A -> Prog B) : Prog B :=
  match p with
  | Done (Normal a) => q a
  | Done (Thrown m) => Done (Thrown m)
  | SetState f k => SetState f (bind k q)
  | Await url k => Await url (fun o => bind (k o) q)
  end.

(** A call [setX (v)] of a state setter. *)
Definition set (f : St -> St) : Prog unit := SetState f (ret tt).

(** [await fetch (url)]: the response when the promise is fulfilled, a
    throw of the rejection when it is rejected. *)
Definition await_fetch (url : Request) : Prog (Response Data) :=
  Await url (fun o =>
    match o with
    | Fulfilled response => ret response
    | Rejected message => throw message
    end).

(** [await response.json ()] *)
Definition await_json (response : Response Data) : Prog Data :=
  match body response with
  | Parsed data => ret data
  | Malformed message => throw message
  end.

(** The request a body hands to the network once its leading setter
    calls are done, with the continuation that waits for it. *)
Fixpoint first_await {A} (p : Prog A)
    : option (Request * (Settlement Data -> Prog A)) :=
  match p with
  | Done _ => None
  | SetState _ k => first_await k
  | Await url k => Some (url, k)
  end.

(** [try { p } catch (err) { handler err.message }] *)
Fixpoint try_catch {A} (p : Prog A) (handler : string -> Prog A) : Prog A :=
  match p with
  | Done (Normal a) => Done (Normal a)
  | Done (Thrown m) => handler m
  | SetState f k => SetState f (try_catch k handler)
  | Await url k => Await url (fun o => try_catch (k o) handler)
  end.

(** [try { p } finally { fin }]: [fin] runs on both exits and the
    completion of [p] is kept, unless [fin] itself throws. *)
Fixpoint try_finally {A} (p : Prog A) (fin : Prog unit) : Prog A :=
  match p with
  | Done c => bind fin (fun _ => Done c)
  | SetState f k => SetState f (try_finally k fin)
  | Await url k => Await url (fun o => try_finally (k o) fin)
  end.

(** [try { p } catch (err) { handler err.message } finally { fin }] *)
Definition try_catch_finally {A} (p : Prog A) (handler : string -> Prog A)
    (fin : Prog unit) : Prog A :=
  try_finally (try_catch p handler) fin.

End Prog.

Arguments Prog St Data A : clear implicits.
Arguments Done {St Data A} c.
Arguments SetState {St Data A} f k.
Arguments Await {St Data A} url k.

Declare Scope prog_scope.
Delimit Scope prog_scope with prog.
Notation "x <- p ;; q" := (bind p (fun x => q))
  (at level 61, p at next level, right associativity) : prog_scope.
Notation "p ;; q" := (bind p (fun _ => q))
  (at level 61, right associativity) : prog_scope.

End Async.

(** ** What a component renders, and the runtime that drives it *)

Module React.
Import Net Async.

(** The four handlers the buttons of a list are wired to. *)
Inductive Action : Type :=
| HandleRefresh
| GoToPage (pageNumber : Z)
| GoToPreviousPage
| GoToNextPage.

Definition Action_eqb (a b : Action) : bool :=
  match a, b with
  | HandleRefresh, HandleRefresh => true
  | GoToPage n, GoToPage m => n =? m
  | GoToPreviousPage, GoToPreviousPage => true
  | GoToNextPage, GoToNextPage => true
  | _, _ => false
  end.

(** The rendered output, flattened in document order.  Styling is left
    out; what is kept is which parts are on screen, their text, and for a
    button its handler and whether it is disabled. *)
Inductive Element (A : Type) : Type :=
| Spinner (caption : string)
| Alert (heading message : string)
| Button (label : string) (onClick : Action) (disabled : bool)
| Heading (text : string)
| Summary (text : string)
| Item (data : A)
| Ellipsis
| Notice (text : string).
Arguments Spinner {A} caption.
Arguments Alert {A} heading message.
Arguments Button {A} label onClick disabled.
Arguments Heading {A} text.
Arguments Summary {A} text.
Arguments Item {A} data.
Arguments Ellipsis {A}.
Arguments Notice {A} text.

Definition View (A : Type) : Type := list (Element A).

(** A click reaches [a] when an enabled button wired to it is on screen. *)
Definition clickable {A} (a : Action) (v : View A) : bool :=
  existsb (fun e =>
    match e with
    | Button _ onClick false => Action_eqb a onClick
    | _ => false
    end) v.

Definition shows_spinner {A} (v : View A) : bool :=
  existsb (fun e => match e with Spinner _ => true | _ => false end) v.
Definition shows_alert {A} (v : View A) : bool :=
  existsb (fun e => match e with Alert _ _ => true | _ => false end) v.
(** The list view: its heading, summary and item cards. *)
Definition shows_list {A} (v : View A) : bool :=
  existsb (fun e =>
    match e with Heading _ | Summary _ | Item _ => true | _ => false end) v.

(** Exactly one of three flags is set. *)
Definition exactly_one (a b c : bool) : bool :=
  (a && negb b && negb c) || (negb a && b && negb c) || (negb a && negb b && c).

(** The pagination [<nav>] block, the same JSX in both components. *)
Definition pagination {A} (currentPage totalPages : Z) : View A :=
  let pages := Pagination.getPageNumbers currentPage totalPages in
  let first := Js.index pages 0 in
  let last := Js.index pages (Z.of_nat (length pages) - 1) in
  [Button "Anterior" GoToPreviousPage (currentPage =? 1)]
  ++ (if Js.gt first 1
      then Button "1" (GoToPage 1) false
           :: (if Js.gt first 2 then [Ellipsis] else [])
      else [])
  ++ map (fun pageNumber =>
            Button (Js.number_to_string pageNumber) (GoToPage pageNumber) false)
         pages
  ++ (if Js.lt last totalPages
      then (if Js.lt last (totalPages - 1) then [Ellipsis] else [])
           ++ [Button (Js.number_to_string totalPages) (GoToPage totalPages) false]
      else [])
  ++ [Button "Siguiente" GoToNextPage (currentPage =? totalPages)].

(** A function component: its [useState] cells, what it renders from them,
    the handlers of a render (closures over that render's cells), and its
    one [useEffect] with its dependency array. *)
Record Component (St Data Item : Type) : Type := mkComponent {
  initial : St;
  render : St -> View Item;
  handler : St -> Action -> Prog St Data unit;
  effect : St -> Prog St Data unit;
  deps : St -> list Z
}.
Arguments initial {St Data Item} c.
Arguments render {St Data Item} c s.
Arguments handler {St Data Item} c s a.
Arguments effect {St Data Item} c s.
Arguments deps {St Data Item} c s.

Section Runtime.
Context {St Data Item : Type} (C : Component St Data Item).

(** A mounted component: its cells, every request it has issued so far
    (oldest first), the fetches still in flight with the continuation
    each one resumes, and the dependency array of the last effect run
    ([None] before the first commit). *)
Record Instance : Type := mkInstance {
  cells : St;
  requests : list Request;
  pending : list (Request * (Settlement Data -> Prog St Data unit));
  lastDeps : option (list Z)
}.

(** Run a handler body inside the current event: setters apply in order,
    a [fetch] sends the request and parks the continuation.  A throw
    that nothing caught ends the body. *)
Fixpoint exec (p : Prog St Data unit) (i : Instance) : Instance :=
  match p with
  | Done _ => i
  | SetState f k =>
      exec k (mkInstance (f (cells i)) (requests i) (pending i) (lastDeps i))
  | Await url k =>
      mkInstance (cells i) (requests i ++ [url])
                 (pending i ++ [(url, k)]) (lastDeps i)
  end.

Definition deps_changed (i : Instance) : bool :=
  match lastDeps i with
  | None => true
  | Some d => if list_eq_dec Z.eq_dec d (deps C (cells i)) then false else true
  end.

(** After the render that follows an event, the effect runs when its
    dependency array differs from the one of its last run.  The effect of
    either list writes none of its own dependencies before its [await], so
    the render it causes does not run it again. *)
Definition commit (i : Instance) : Instance :=
  if deps_changed i
  then exec (effect C (cells i))
            (mkInstance (cells i) (requests i) (pending i)
                        (Some (deps C (cells i))))
  else i.

(** Mounting: first render from the initial cells, then the effect. *)
Definition mount : Instance :=
  commit (mkInstance (initial C) [] [] None).

Inductive Event : Type :=
| Click (a : Action)
| Settle (n : nat) (o : Settlement Data).

Definition remove_nth {X} (n : nat) (l : list X) : list X :=
  firstn n l ++ skipn (S n) l.

(** The handler is called, or the [n]-th fetch in flight settles. *)
Definition fire (e : Event) (i : Instance) : Instance :=
  match e with
  | Click a => commit (exec (handler C (cells i) a) i)
  | Settle n o =>
      match nth_error (pending i) n with
      | Some (_, k) =>
          commit (exec (k o)
            (mkInstance (cells i) (requests i)
                        (remove_nth n (pending i)) (lastDeps i)))
      | None => i
      end
  end.

(** What can happen to the mounted component: the user clicks an enabled
    button that is on screen, or a fetch in flight settles. *)
Definition enabled (e : Event) (i : Instance) : bool :=
  match e with
  | Click a => clickable a (render C (cells i))
  | Settle n _ => match nth_error (pending i) n with Some _ => true | None => false end
  end.

Definition step (e : Event) (i : Instance) : option Instance :=
  if enabled e i then Some (fire e i) else None.

Inductive reachable : Instance -> Prop :=
| reachable_mount : reachable mount
| reachable_step i e i' :
    reachable i -> step e i = Some i' -> reachable i'.

Definition is_refresh (e : Event) : bool :=
  match e with
  | Click HandleRefresh => true
  | _ => false
  end.

(** Calls made one after the other, whether or not a button offers them. *)
Definition fire_all (es : list Event) (i : Instance) : Instance :=
  fold_left (fun acc e => fire e acc) es i.

(** Every event of the sequence is enabled when its turn comes. *)
Fixpoint all_enabled (es : list Event) (i : Instance) : bool :=
  match es with
  | [] => true
  | e :: es => enabled e i && all_enabled es (fire e i)
  end.

End Runtime.

Arguments Instance St Data : clear implicits.
Arguments mkInstance {St Data} cells requests pending lastDeps.
Arguments cells {St Data} i.
Arguments requests {St Data} i.
Arguments pending {St Data} i.
Arguments lastDeps {St Data} i.
Arguments Click {Data} a.
Arguments Settle {Data} n o.

End React.

(** ** PostsList.jsx: the whole collection is fetched once and sliced locally *)

Module PostsList.
Import Net Async React.
Local Open Scope prog_scope.

Record Post : Type := mkPost {
  id : Z;
  title : string;
  body : string;
  userId : Z
}.

(** The four [useState] cells. *)
Record State : Type := mkState {
  allPosts : list Post;
  currentPage : Z;
  loading : bool;
  error : option string
}.

Definition Cmd : Type := Prog State (list Post) unit.

Definition setAllPosts (v : list Post) : Cmd :=
  set (fun s => mkState v (currentPage s) (loading s) (error s)).
Definition setCurrentPage (v : Z) : Cmd :=
  set (fun s => mkState (allPosts s) v (loading s) (error s)).
Definition setLoading (v : bool) : Cmd :=
  set (fun s => mkState (allPosts s) (currentPage s) v (error s)).
Definition setError (v : option string) : Cmd :=
  set (fun s => mkState (allPosts s) (currentPage s) (loading s) v).

(** [useState ([])], [useState (1)], [useState (true)], [useState (null)] *)
Definition initial : State := mkState [] 1 true None.

Definition postsPerPage : Z := 10.

Definition indexOfLastPost (s : State) : Z := currentPage s * postsPerPage.
Definition indexOfFirstPost (s : State) : Z := indexOfLastPost s - postsPerPage.
Definition currentPosts (s : State) : list Post :=
  Js.slice (allPosts s) (indexOfFirstPost s) (indexOfLastPost s).

(** [Math.ceil (allPosts.length / postsPerPage)] *)
Definition totalPages (s : State) : Z :=
  Js.ceil_div (Z.of_nat (length (allPosts s))) postsPerPage.

Definition url : Request :=
  "https://jsonplaceholder.typicode.com/posts"%string.

Definition fetchPosts : Cmd :=
  try_catch_finally
    (setLoading true ;;
     setError None ;;
     response <- await_fetch url ;;
     (if negb (ok response)
      then throw ("Error: " ++ Js.number_to_string (status response))%string
      else ret tt) ;;
     data <- await_json response ;;
     setAllPosts data ;;
     setCurrentPage 1)
    (fun message => setError (Some message))
    (setLoading false).

(** [handleRefresh] calls [fetchPosts ()] and does nothing else. *)
Definition handleRefresh : Cmd := fetchPosts.

Definition goToPage (pageNumber : Z) : Cmd := setCurrentPage pageNumber.

Definition goToPreviousPage (s : State) : Cmd :=
  if currentPage s >? 1 then setCurrentPage (currentPage s - 1) else ret tt.

Definition goToNextPage (s : State) : Cmd :=
  if currentPage s <? totalPages s
  then setCurrentPage (currentPage s + 1)
  else ret tt.

Definition getPageNumbers (s : State) : list Z :=
  Pagination.getPageNumbers (currentPage s) (totalPages s).

Definition handler (s : State) (a : Action) : Cmd :=
  match a with
  | HandleRefresh => handleRefresh
  | GoToPage pageNumber => goToPage pageNumber
  | GoToPreviousPage => goToPreviousPage s
  | GoToNextPage => goToNextPage s
  end.

Definition summary (s : State) : string :=
  ("Mostrando " ++ Js.number_to_string (indexOfFirstPost s + 1)
   ++ "-" ++ Js.number_to_string
               (Z.min (indexOfLastPost s) (Z.of_nat (length (allPosts s))))
   ++ " de " ++ Js.number_to_string (Z.of_nat (length (allPosts s)))
   ++ " posts")%string.

(** The three [return]s of the component body, in order. *)
Definition render (s : State) : View Post :=
  if loading s then
    [Spinner "Cargando posts..."]
  else if Js.truthy (error s) then
    [Alert "Error al cargar posts" (match error s with Some m => m | None => EmptyString end);
     Button "Intentar de nuevo" HandleRefresh false]
  else
    [Heading "Posts desde API"; Summary (summary s);
     Button "Actualizar" HandleRefresh false]
    ++ map Item (currentPosts s)
    ++ (if totalPages s >? 1
        then pagination (currentPage s) (totalPages s)
        else [])
    ++ (if (Z.of_nat (length (allPosts s)) =? 0) && negb (loading s)
        then [Notice "No hay posts disponibles"]
        else []).

(** [useEffect (() => { fetchPosts () }, [])] *)
Definition component : Component State (list Post) Post :=
  mkComponent State (list Post) Post
    initial render handler (fun _ => fetchPosts) (fun _ => []).

(** The rest of [fetchPosts] after [await fetch (...)]. *)
Definition resume (o : Settlement (list Post)) : Cmd :=
  match first_await fetchPosts with
  | Some (_, k) => k o
  | None => ret tt
  end.

(** The effect has run, and either the spinner is up with the one fetch
    it waits for in flight, or nothing is in flight. *)
Definition settled_or_waiting (i : Instance State (list Post)) : Prop :=
  lastDeps i = Some []
  /\ ((loading (cells i) = true /\ pending i = [(url, resume)])
      \/ (loading (cells i) = false /\ pending i = [])).

(** The effect has run, every fetch in flight resumes [fetchPosts], and
    one request has been issued. *)
Definition fetched_once (i : Instance State (list Post)) : Prop :=
  lastDeps i = Some []
  /\ Forall (fun rk => snd rk = resume) (pending i)
  /\ requests i = [url].

End PostsList.

(** ** CommentList.jsx: one page is fetched per page change *)

Module CommentList.
Import Net Async React.
Local Open Scope prog_scope.

Record Comment : Type := mkComment {
  id : Z;
  email : string;
  body : string
}.

Record State : Type := mkState {
  comments : list Comment;
  currentPage : Z;
  loading : bool;
  error : option string
}.

Definition Cmd : Type := Prog State (list Comment) unit.

Definition setComments (v : list Comment) : Cmd :=
  set (fun s => mkState v (currentPage s) (loading s) (error s)).
Definition setCurrentPage (v : Z) : Cmd :=
  set (fun s => mkState (comments s) v (loading s) (error s)).
Definition setLoading (v : bool) : Cmd :=
  set (fun s => mkState (comments s) (currentPage s) v (error s)).
Definition setError (v : option string) : Cmd :=
  set (fun s => mkState (comments s) (currentPage s) (loading s) v).

Definition initial : State := mkState [] 1 true None.

Definition commentsPerPage : Z := 10.
Definition totalComments : Z := 500.
Definition totalPages : Z := Js.ceil_div totalComments commentsPerPage.

(** The template literal passed to [fetch]. *)
Definition url (start : Z) : Request :=
  ("https://jsonplaceholder.typicode.com/comments?_start="
   ++ Js.number_to_string start
   ++ "&_limit=" ++ Js.number_to_string commentsPerPage)%string.

Definition fetchComments (page : Z) : Cmd :=
  try_catch_finally
    (setLoading true ;;
     setError None ;;
     let start := (page - 1) * commentsPerPage in
     response <- await_fetch (url start) ;;
     (if negb (ok response)
      then throw ("Error: " ++ Js.number_to_string (status response))%string
      else ret tt) ;;
     data <- await_json response ;;
     setComments data)
    (fun message => setError (Some message))
    (setLoading false).

Definition goToPage (pageNumber : Z) : Cmd :=
  if (pageNumber >=? 1) && (pageNumber <=? totalPages)
  then setCurrentPage pageNumber
  else ret tt.

Definition goToPreviousPage (s : State) : Cmd :=
  if currentPage s >? 1 then setCurrentPage (currentPage s - 1) else ret tt.

Definition goToNextPage (s : State) : Cmd :=
  if currentPage s <? totalPages
  then setCurrentPage (currentPage s + 1)
  else ret tt.

Definition handleRefresh (s : State) : Cmd := fetchComments (currentPage s).

Definition getPageNumbers (s : State) : list Z :=
  Pagination.getPageNumbers (currentPage s) totalPages.

Definition handler (s : State) (a : Action) : Cmd :=
  match a with
  | HandleRefresh => handleRefresh s
  | GoToPage pageNumber => goToPage pageNumber
  | GoToPreviousPage => goToPreviousPage s
  | GoToNextPage => goToNextPage s
  end.

Definition summary (s : State) : string :=
  ("Página " ++ Js.number_to_string (currentPage s)
   ++ " de " ++ Js.number_to_string totalPages
   ++ " - Mostrando " ++ Js.number_to_string (Z.of_nat (length (comments s)))
   ++ " comentarios")%string.

Definition render (s : State) : View Comment :=
  if loading s then
    [Spinner "Cargando comentarios..."]
  else if Js.truthy (error s) then
    [Alert "Error al cargar comentarios"
           (match error s with Some m => m | None => EmptyString end);
     Button "Intentar de nuevo" HandleRefresh false]
  else
    [Heading "Comentarios desde API"; Summary (summary s);
     Button "Actualizar" HandleRefresh false]
    ++ map Item (comments s)
    ++ (if totalPages >? 1
        then pagination (currentPage s) totalPages
        else [])
    ++ (if (Z.of_nat (length (comments s)) =? 0) && negb (loading s)
        then [Notice "No hay comentarios disponibles"]
        else []).

(** [useEffect (() => { fetchComments (currentPage) }, [currentPage])] *)
Definition component : Component State (list Comment) Comment :=
  mkComponent State (list Comment) Comment
    initial render handler
    (fun s => fetchComments (currentPage s))
    (fun s => [currentPage s]).

(** The rest of [fetchComments] after [await fetch (...)]; it does not
    mention [page]. *)
Definition resume (o : Settlement (list Comment)) : Cmd :=
  match first_await (fetchComments 1) with
  | Some (_, k) => k o
  | None => ret tt
  end.

(** The request [fetchComments (page)] sends. *)
Definition request_for (page : Z) : Request :=
  url ((page - 1) * commentsPerPage).

(** The effect has run for the current page, and either the spinner is up
    with the fetch of the current page in flight, or nothing is in
    flight. *)
Definition settled_or_waiting (i : Instance State (list Comment)) : Prop :=
  lastDeps i = Some [currentPage (cells i)]
  /\ ((loading (cells i) = true
       /\ pending i = [(request_for (currentPage (cells i)), resume)])
      \/ (loading (cells i) = false /\ pending i = [])).

End CommentList.

(** ** App.jsx: the counter of the modal *)

Module App.

(** [const [count, setCount] = useState (0)] *)
Definition initial : Z := 0.

(** The two buttons of the modal that touch the counter. *)
Inductive Action : Type :=
| Incrementar
| Resetear.

(** [onClick={() => setCount (count + 1)}] and
    [onClick={() => setCount (0)}]; the result is the next [count]. *)
Definition onClick (count : Z) (a : Action) : Z :=
  match a with
  | Incrementar => count + 1
  | Resetear => 0
  end.

(** [<strong>{count}</strong>] *)
Definition display (count : Z) : string := Js.number_to_string count.

Definition clicks (l : list Action) (count : Z) : Z :=
  fold_left onClick l count.

End App.

(** ** Sample runs *)

Module Scenario.
Import Net React.

(** A response with status 200 whose body parses to [data]. *)
Definition accepted {A} (data : A) : Settlement A :=
  Fulfilled (mkResponse 200 (Parsed data)).

(** A response with status 500. *)
Definition server_error {A} (data : A) : Settlement A :=
  Fulfilled (mkResponse 500 (Parsed data)).

Definition posts (n : nat) : list PostsList.Post :=
  map (fun k => PostsList.mkPost (Z.of_nat k) "title" "body" 1) (seq 1 n).

(** PostsList with 25 posts loaded, after a click on page 3. *)
Definition posts_on_page_3 : list (@Event (list PostsList.Post)) :=
  [Settle 0 (accepted (posts 25)); Click (GoToPage 3)].

(** CommentList with page 3 loaded. *)
Definition comments_on_page_3 : list (@Event (list CommentList.Comment)) :=
  [Settle 0 (accepted []); Click (GoToPage 3); Settle 0 (accepted [])].

(** CommentList waiting for page 3. *)
Definition comments_waiting_for_page_3
    : list (@Event (list CommentList.Comment)) :=
  [Settle 0 (accepted []); Click (GoToPage 3)].

End Scenario.

(** ** Failed fetches

    The ways a fetch of either list fails, with the message its [catch]
    receives: the promise of [fetch] is rejected, the response has a status
    outside 200-299, or the body of an accepted response does not parse. *)

Module Failure.
Import Net.

Inductive fails {A} : Settlement A -> string -> Prop :=
| fails_transport message :
    fails (Rejected message) message
| fails_status response :
    ok response = false ->
    fails (Fulfilled response)
          ("Error: " ++ Js.number_to_string (status response))%string
| fails_body response message :
    ok response = true ->
    body response = Malformed message ->
    fails (Fulfilled response) message.

End Failure.

(** ** Reading a rendered view, a post card, and event counts *)

Module Screen.
Import React.

(** The pages the page buttons of a view lead to, in document order. *)
Definition page_targets {A} (v : View A) : list Z :=
  flat_map (fun e =>
    match e with
    | Button _ (GoToPage pageNumber) _ => [pageNumber]
    | _ => []
    end) v.

(** The items a view shows, in document order. *)
Definition items_shown {A} (v : View A) : list A :=
  flat_map (fun e => match e with Item data => [data] | _ => [] end) v.

(** The refresh clicks of an event sequence. *)
Definition refresh_clicks {Data} (es : list (@Event Data)) : nat :=
  length (filter is_refresh es).

End Screen.

Module PostCard.

(** A JavaScript string as its sequence of UTF-16 code units. *)
Definition JsString : Type := list N.

(** ["..."] *)
Definition dots : JsString := [46; 46; 46]%N.

(** The text of a post card in PostsList.jsx:
    [post.body.length > 100 ? `${post.body.substring(0, 100)}...` : post.body] *)
Definition card_text (body : JsString) : JsString :=
  if (100 <? length body)%nat then firstn 100 body ++ dots else body.

End PostCard.

Module Counter.
Import App.

(** The clicks on "Incrementar contador" after the last click on
    "Resetear contador". *)
Definition has_reset (l : list Action) : bool :=
  existsb (fun a => match a with Resetear => true | Incrementar => false end) l.

Fixpoint increments_since_reset (l : list Action) : nat :=
  match l with
  | [] => 0%nat
  | Incrementar :: rest =>
      if has_reset rest
      then increments_since_reset rest
      else Datatypes.S (increments_since_reset rest)
  | Resetear :: rest => increments_since_reset rest
  end.

End Counter.

(** * Properties *)

Module PaginationFacts.
Import Pagination.

Lemma closed_range_empty first last :
  last < first -> closed_range first last = [].
Proof.
  intros H. unfold closed_range.
  replace (Z.to_nat (last - first + 1)) with 0%nat by lia. reflexivity.
Qed.

Lemma closed_range_cons first last :
  first <= last ->
  closed_range first last = first :: closed_range (first + 1) last.
Proof.
  intros H. unfold closed_range.
  replace (Z.to_nat (last - first + 1))
    with (S (Z.to_nat (last - (first + 1) + 1))) by lia.
  cbn [seq map]. f_equal; [lia|].
  rewrite <- seq_shift, map_map.
  apply map_ext. intros k. lia.
Qed.

Lemma closed_range_length first last :
  length (closed_range first last) = Z.to_nat (last - first + 1).
Proof. unfold closed_range. now rewrite length_map, length_seq. Qed.

Lemma closed_range_In first last x :
  In x (closed_range first last) <-> first <= x <= last.
Proof.
  unfold closed_range. rewrite in_map_iff. split.
  - intros (k & <- & Hk). apply in_seq in Hk. lia.
  - intros H. exists (Z.to_nat (x - first)). split; [lia|].
    apply in_seq. lia.
Qed.

Lemma closed_range_contiguous first last :
  contiguous (closed_range first last) = true.
Proof.
  remember (Z.to_nat (last - first + 1)) as n eqn:Hn.
  revert first Hn. induction n as [|n IH]; intros first Hn.
  - rewrite closed_range_empty by lia. reflexivity.
  - rewrite closed_range_cons by lia.
    specialize (IH (first + 1) ltac:(lia)).
    destruct (Z_le_gt_dec (first + 1) last) as [Hle|Hgt].
    + rewrite closed_range_cons in IH |- * by lia.
      cbn [contiguous] in IH |- *. rewrite Z.eqb_refl. exact IH.
    + rewrite closed_range_empty by lia. reflexivity.
Qed.

(** The loop appends the pages that are left, in order. *)
Lemma pushPages_range i endPage pageNumbers :
  pushPages i endPage pageNumbers = pageNumbers ++ closed_range i endPage.
Proof.
  funelim (pushPages i endPage pageNumbers).
  - match goal with IH : pushPages _ _ _ = _ ++ _ |- _ => rewrite IH end.
    rewrite <- app_assoc. cbn [app].
    now rewrite <- closed_range_cons by lia.
  - rewrite closed_range_empty by lia. now rewrite app_nil_r.
Qed.

(** [getPageNumbers] returns the range between the adjusted first page and
    the last page computed from the unadjusted one. *)
Lemma getPageNumbers_range currentPage totalPages :
  getPageNumbers currentPage totalPages =
  let startPage := Z.max 1 (currentPage - 2) in
  let endPage := Z.min totalPages (startPage + 4) in
  closed_range
    (if endPage - startPage + 1 <? 5 then Z.max 1 (endPage - 4) else startPage)
    endPage.
Proof.
  unfold getPageNumbers, maxPagesToShow.
  change (5 / 2) with 2. cbv zeta.
  rewrite pushPages_range. cbn [app].
  replace (Z.max 1 (currentPage - 2) + 5 - 1)
    with (Z.max 1 (currentPage - 2) + 4) by lia.
  replace (Z.min totalPages (Z.max 1 (currentPage - 2) + 4) - 5 + 1)
    with (Z.min totalPages (Z.max 1 (currentPage - 2) + 4) - 4) by lia.
  reflexivity.
Qed.

Example getPageNumbers_last_page : getPageNumbers 10 10 = [6; 7; 8; 9; 10].
Proof. reflexivity. Qed.

Example getPageNumbers_few_pages : getPageNumbers 2 3 = [1; 2; 3].
Proof. reflexivity. Qed.

Example getPageNumbers_middle : getPageNumbers 25 50 = [23; 24; 25; 26; 27].
Proof. reflexivity. Qed.

(** C1. For [totalPages >= 1] and [currentPage] in [[1, totalPages]],
    [getPageNumbers] returns a contiguous run of integers of length
    [min (maxPagesToShow, totalPages)], and the run contains [currentPage]
    whenever [totalPages >= maxPagesToShow]. *)
Theorem getPageNumbers_window currentPage totalPages :
  1 <= totalPages ->
  1 <= currentPage <= totalPages ->
  contiguous (getPageNumbers currentPage totalPages) = true
  /\ Z.of_nat (length (getPageNumbers currentPage totalPages))
     = Z.min maxPagesToShow totalPages
  /\ (maxPagesToShow <= totalPages ->
      In currentPage (getPageNumbers currentPage totalPages)).
Proof.
  intros Htotal Hcurrent.
  rewrite getPageNumbers_range. cbv zeta. unfold maxPagesToShow.
  split; [apply closed_range_contiguous|].
  split.
  - rewrite closed_range_length.
    destruct (Z.ltb_spec
      (Z.min totalPages (Z.max 1 (currentPage - 2) + 4)
       - Z.max 1 (currentPage - 2) + 1) 5); lia.
  - intros Hwide. apply closed_range_In.
    destruct (Z.ltb_spec
      (Z.min totalPages (Z.max 1 (currentPage - 2) + 4)
       - Z.max 1 (currentPage - 2) + 1) 5); lia.
Qed.

Lemma getPageNumbers_window_witness :
  contiguous (getPageNumbers 9 10) = true
  /\ Z.of_nat (length (getPageNumbers 9 10)) = Z.min maxPagesToShow 10
  /\ (maxPagesToShow <= 10 -> In 9 (getPageNumbers 9 10)).
Proof. apply (getPageNumbers_window 9 10); unfold maxPagesToShow; lia. Defined.

(** C2. [getPageNumbers] computes the four steps of the specification with
    window size 5: its result is [window_spec currentPage totalPages 5],
    for every [currentPage] and [totalPages] (in particular for
    [currentPage >= 1] and [totalPages >= 0]). *)
Theorem getPageNumbers_refines_window_spec currentPage totalPages :
  getPageNumbers currentPage totalPages
  = window_spec currentPage totalPages maxPagesToShow.
Proof.
  unfold getPageNumbers, window_spec. cbv zeta.
  rewrite pushPages_range. reflexivity.
Qed.

End PaginationFacts.

Module NetFacts.
Import Net.
Local Open Scope string_scope.

Lemma contains_app c s1 s2 :
  contains c (s1 ++ s2) = contains c s1 || contains c s2.
Proof.
  induction s1 as [|a s1 IH]; cbn; [reflexivity|].
  now rewrite IH, orb_assoc.
Qed.

Lemma split_on_absent c s : contains c s = false -> split_on c s = [s].
Proof.
  induction s as [|a s IH]; cbn; [reflexivity|].
  intros H. apply orb_false_iff in H as [Ha Hs].
  rewrite Ha, (IH Hs). reflexivity.
Qed.

Lemma split_on_first c s1 s2 :
  contains c s1 = false ->
  split_on c (s1 ++ String c s2) = s1 :: split_on c s2.
Proof.
  induction s1 as [|a s1 IH]; cbn.
  - intros _. now rewrite Ascii.eqb_refl.
  - intros H. apply orb_false_iff in H as [Ha Hs].
    rewrite Ha, (IH Hs). reflexivity.
Qed.

(** A decimal numeral holds digits only. *)
Lemma contains_uint c d :
  In c ["?"; "&"; "="]%char ->
  contains c (NilEmpty.string_of_uint d) = false.
Proof.
  intros Hc. induction d; cbn; rewrite ?IHd;
    try reflexivity;
    destruct Hc as [<-|[<-|[<-|[]]]]; reflexivity.
Qed.

Lemma contains_number c n :
  In c ["?"; "&"; "="]%char ->
  contains c (Js.number_to_string n) = false.
Proof.
  intros Hc. unfold Js.number_to_string.
  assert (Hu : forall d, contains c (NilZero.string_of_uint d) = false).
  { intros d. pose proof (contains_uint c d Hc) as Hd.
    destruct d; try exact Hd.
    destruct Hc as [<-|[<-|[<-|[]]]]; reflexivity. }
  destruct (Z.to_int n) as [d|d]; cbn [NilZero.string_of_int].
  - apply Hu.
  - cbn. rewrite Hu.
    destruct Hc as [<-|[<-|[<-|[]]]]; reflexivity.
Qed.

End NetFacts.

Module ReactFacts.
Import Net Async React.

Section Runtime.
Context {St Data Item : Type} (C : Component St Data Item).

Lemma commit_unchanged (i : Instance St Data) :
  lastDeps i = Some (deps C (cells i)) -> commit C i = i.
Proof.
  intros H. unfold commit, deps_changed. rewrite H.
  destruct (list_eq_dec Z.eq_dec _ _); congruence.
Qed.

Lemma commit_changed (i : Instance St Data) d :
  lastDeps i = Some d -> d <> deps C (cells i) ->
  commit C i =
  exec (effect C (cells i))
       (mkInstance (cells i) (requests i) (pending i)
                   (Some (deps C (cells i)))).
Proof.
  intros H Hd. unfold commit, deps_changed. rewrite H.
  destruct (list_eq_dec Z.eq_dec _ _); congruence.
Qed.

(** Induction over the events that lead to a reachable instance. *)
Lemma reachable_invariant (P : Instance St Data -> Prop) :
  P (mount C) ->
  (forall i e, reachable C i -> P i -> enabled C e i = true -> P (fire C e i)) ->
  forall i, reachable C i -> P i.
Proof.
  intros Hmount Hfire i Hreach.
  induction Hreach as [|i e i' Hreach IH Hstep]; [exact Hmount|].
  unfold step in Hstep.
  destruct (enabled C e i) eqn:He; [|discriminate].
  injection Hstep as <-. now apply Hfire.
Qed.

Lemma fire_all_invariant (P : Instance St Data -> Prop) (Q : @Event Data -> Prop) :
  (forall i e, P i -> Q e -> P (fire C e i)) ->
  forall es i, P i -> Forall Q es -> P (fire_all C es i).
Proof.
  intros Hfire es. induction es as [|e es IH]; intros i Hi Hes; [exact Hi|].
  inversion Hes; subst. cbn. apply IH; [now apply Hfire | assumption].
Qed.

Lemma reachable_fire_all es (i : Instance St Data) :
  reachable C i -> all_enabled C es i = true ->
  reachable C (fire_all C es i).
Proof.
  revert i. induction es as [|e es IH]; intros i Hi Hes; [exact Hi|].
  cbn in Hes. apply andb_true_iff in Hes as [He Hes].
  cbn. apply IH; [|exact Hes].
  apply (reachable_step C i e); [exact Hi|].
  unfold step. now rewrite He.
Qed.

Lemma Forall_firstn_skipn {X} (P : X -> Prop) (l : list X) :
  Forall P l -> forall n, Forall P (firstn n l) /\ Forall P (skipn n l).
Proof.
  induction 1 as [|x l Hx Hl IH]; intros [|n]; cbn; auto.
  destruct (IH n) as [Hfirst Hskip]. auto.
Qed.

Lemma Forall_remove_nth {X} (P : X -> Prop) n (l : list X) :
  Forall P l -> Forall P (remove_nth n l).
Proof.
  intros H. unfold remove_nth. apply Forall_app. split.
  - now apply Forall_firstn_skipn.
  - now apply Forall_firstn_skipn.
Qed.

End Runtime.

End ReactFacts.

Module PostsListFacts.
Import Net Async React Failure ReactFacts PostsList.

(** ** Calling and resuming [fetchPosts] *)

Lemma exec_fetchPosts (i : Instance State (list Post)) :
  exec fetchPosts i =
  mkInstance (mkState (allPosts (cells i)) (currentPage (cells i)) true None)
             (requests i ++ [url]) (pending i ++ [(url, resume)]) (lastDeps i).
Proof. reflexivity. Qed.

Lemma posts_exec_resume_failure o message (j : Instance State (list Post)) :
  fails o message ->
  exec (resume o) j =
  mkInstance (mkState (allPosts (cells j)) (currentPage (cells j))
                      false (Some message))
             (requests j) (pending j) (lastDeps j).
Proof.
  intros [m | r Hok | r m Hok Hbody]; unfold resume; cbn.
  - reflexivity.
  - rewrite Hok. reflexivity.
  - rewrite Hok. cbn. unfold await_json. rewrite Hbody. reflexivity.
Qed.

Lemma posts_exec_resume_success r data (j : Instance State (list Post)) :
  ok r = true -> Net.body r = Parsed data ->
  exec (resume (Fulfilled r)) j =
  mkInstance (mkState data 1 false (error (cells j)))
             (requests j) (pending j) (lastDeps j).
Proof.
  intros Hok Hbody. unfold resume; cbn. rewrite Hok. cbn.
  unfold await_json. rewrite Hbody. reflexivity.
Qed.

(** Resuming never sends a request and parks nothing. *)
Lemma exec_resume_quiet o (j : Instance State (list Post)) :
  requests (exec (resume o) j) = requests j
  /\ pending (exec (resume o) j) = pending j
  /\ lastDeps (exec (resume o) j) = lastDeps j.
Proof.
  destruct o as [r|m]; unfold resume; cbn; [|auto].
  destruct (ok r); cbn; [|auto].
  unfold await_json. destruct (Net.body r); cbn; auto.
Qed.

Lemma commit_once (i : Instance State (list Post)) :
  lastDeps i = Some [] -> commit component i = i.
Proof. intros H. now apply commit_unchanged. Qed.

Lemma posts_mount_eq :
  mount component =
  mkInstance (mkState [] 1 true None) [url] [(url, resume)] (Some []).
Proof. reflexivity. Qed.

(** A navigation handler only ever writes [currentPage]. *)
Lemma posts_exec_navigation a (i : Instance State (list Post)) :
  a <> HandleRefresh ->
  exists page,
    exec (handler (cells i) a) i =
    mkInstance (mkState (allPosts (cells i)) page
                        (loading (cells i)) (error (cells i)))
               (requests i) (pending i) (lastDeps i).
Proof.
  intros Ha. destruct i as [[posts page ld err] rs ps d].
  destruct a as [|n| |]; cbn.
  - congruence.
  - now exists n.
  - unfold goToPreviousPage; cbn. destruct (page >? 1); cbn; eauto.
  - unfold goToNextPage; cbn.
    destruct (page <? _); cbn; eauto.
Qed.

(** ** One fetch until the next refresh *)

Lemma fetched_once_mount : fetched_once (mount component).
Proof.
  rewrite posts_mount_eq. repeat split; cbn; auto.
Qed.

Lemma fetched_once_fire e (i : Instance State (list Post)) :
  fetched_once i -> is_refresh e = false -> fetched_once (fire component e i).
Proof.
  intros (Hdeps & Hpending & Hrequests) He.
  destruct e as [a|n o]; cbn [fire].
  - assert (Ha : a <> HandleRefresh) by (intros ->; discriminate).
    destruct (posts_exec_navigation a i Ha) as [page Hexec].
    cbn [handler component React.handler]. rewrite Hexec.
    rewrite commit_once by exact Hdeps.
    repeat split; assumption.
  - destruct (nth_error (pending i) n) as [[req k]|] eqn:Hn;
      [|repeat split; assumption].
    assert (Hk : k = resume).
    { apply nth_error_In in Hn.
      rewrite Forall_forall in Hpending. exact (Hpending _ Hn). }
    subst k.
    match goal with |- fetched_once (commit _ (exec _ ?j)) =>
      destruct (exec_resume_quiet o j) as (Hr & Hp & Hd);
      cbn [requests pending lastDeps] in Hr, Hp, Hd
    end.
    rewrite commit_once by congruence.
    repeat split; try congruence.
    rewrite Hp. now apply Forall_remove_nth.
Qed.

Lemma fetched_once_fire_all es :
  Forall (fun e => @is_refresh (list Post) e = false) es ->
  fetched_once (fire_all component es (mount component)).
Proof.
  intros Hes.
  apply (fire_all_invariant component fetched_once
           (fun e => is_refresh e = false)); auto using fetched_once_mount.
  intros i e Hi He. now apply fetched_once_fire.
Qed.

(** C4. PostsList sends exactly one request at mount, and after any
    sequence of events without a refresh (calls of [goToPage],
    [goToPreviousPage] and [goToNextPage] with any argument, settlements
    of the fetch in flight) that is still the only request; one more
    navigation call keeps [allPosts] and shows a slice of it. *)
Theorem posts_fetched_once_until_refresh es a :
  Forall (fun e => @is_refresh (list Post) e = false) es ->
  a <> HandleRefresh ->
  let i := fire_all component es (mount component) in
  let i' := fire component (Click a) i in
  requests (mount component) = [url]
  /\ requests i = [url]
  /\ requests i' = [url]
  /\ allPosts (cells i') = allPosts (cells i)
  /\ currentPosts (cells i') =
     Js.slice (allPosts (cells i))
              (indexOfFirstPost (cells i')) (indexOfLastPost (cells i')).
Proof.
  intros Hes Ha i i'.
  pose proof (fetched_once_fire_all es Hes) as Hi. fold i in Hi.
  assert (Hi' : fetched_once i').
  { apply fetched_once_fire; [exact Hi|].
    destruct a; cbn; congruence. }
  assert (Hposts : allPosts (cells i') = allPosts (cells i)).
  { subst i'. cbn [fire].
    destruct (posts_exec_navigation a i Ha) as [page Hexec].
    cbn [handler component React.handler]. rewrite Hexec.
    rewrite commit_once by apply Hi. reflexivity. }
  split; [reflexivity|].
  split; [apply Hi|].
  split; [apply Hi'|].
  split; [exact Hposts|].
  unfold currentPosts. now rewrite Hposts.
Qed.

Lemma posts_fetched_once_until_refresh_witness :
  let es := [Settle 0 (Fulfilled (mkResponse 200 (Parsed [mkPost 1 "a" "b" 1])));
             Click (GoToPage 2); Click GoToNextPage] in
  let i := fire_all component es (mount component) in
  let i' := fire component (Click GoToPreviousPage) i in
  requests (mount component) = [url]
  /\ requests i = [url]
  /\ requests i' = [url]
  /\ allPosts (cells i') = allPosts (cells i)
  /\ currentPosts (cells i') =
     Js.slice (allPosts (cells i))
              (indexOfFirstPost (cells i')) (indexOfLastPost (cells i')).
Proof.
  apply (posts_fetched_once_until_refresh
           [Settle 0 (Fulfilled (mkResponse 200 (Parsed [mkPost 1 "a" "b" 1])));
            Click (GoToPage 2); Click GoToNextPage]
           GoToPreviousPage).
  - repeat constructor.
  - discriminate.
Defined.

(** Twenty-five posts make three pages; the third shows the last five. *)
Example posts_last_page_of_25 :
  let s := cells (fire_all component Scenario.posts_on_page_3 (mount component)) in
  totalPages s = 3
  /\ length (currentPosts s) = 5%nat
  /\ summary s = "Mostrando 21-25 de 25 posts"%string
  /\ getPageNumbers s = [1; 2; 3].
Proof. repeat split. Qed.

(** ** What the screen allows *)

Lemma posts_render_loading s : loading s = true -> render s = [Spinner "Cargando posts..."].
Proof. intros H. unfold render. now rewrite H. Qed.

Lemma posts_render_error s message :
  loading s = false -> error s = Some message -> message <> EmptyString ->
  render s = [Alert "Error al cargar posts" message;
              Button "Intentar de nuevo" HandleRefresh false].
Proof.
  intros Hl He Hm. unfold render. rewrite Hl, He.
  destruct message; [congruence | reflexivity].
Qed.

Lemma exec_resume_not_loading o (j : Instance State (list Post)) :
  loading (cells (exec (resume o) j)) = false.
Proof.
  destruct o as [r|m]; unfold resume; cbn; [|reflexivity].
  destruct (ok r); cbn; [|reflexivity].
  unfold await_json. destruct (Net.body r); reflexivity.
Qed.

(** With nothing in flight, a navigation call leaves nothing in flight. *)
Ltac navigation_keeps_idle i Hdeps Hl Hp :=
  match goal with
  | |- settled_or_waiting (commit _ (exec (handler _ ?a) _)) =>
      let q := fresh "q" in
      let Hq := fresh "Hq" in
      destruct (posts_exec_navigation a i ltac:(discriminate)) as [q Hq];
      rewrite Hq, commit_once by exact Hdeps;
      split; [exact Hdeps|]; right; split; assumption
  end.

Lemma posts_settled_or_waiting_reachable i :
  reachable component i -> settled_or_waiting i.
Proof.
  apply reachable_invariant.
  - rewrite posts_mount_eq. split; [reflexivity|]. left. split; reflexivity.
  - clear i. intros i e _ (Hdeps & Hstate) He.
    destruct Hstate as [(Hl & Hp) | (Hl & Hp)].
    + destruct e as [a|n o].
      * cbn in He. rewrite (posts_render_loading _ Hl) in He. discriminate.
      * cbn [fire]. rewrite Hp.
        destruct n as [|n]; [|destruct n; cbn; (split; [assumption|]); left; auto].
        cbn [nth_error remove_nth firstn skipn app].
        match goal with |- settled_or_waiting (commit _ (exec _ ?j)) =>
          destruct (exec_resume_quiet o j) as (Hr & Hq & Hd);
          pose proof (exec_resume_not_loading o j) as Hn;
          cbn [requests pending lastDeps] in Hr, Hq, Hd
        end.
        rewrite commit_once by congruence.
        split; [congruence|]. right. split; assumption.
    + destruct e as [a|n o].
      * cbn [fire component React.handler].
        destruct a as [|page| |];
          [| navigation_keeps_idle i Hdeps Hl Hp ..].
        cbn [handler handleRefresh]. rewrite exec_fetchPosts.
        rewrite commit_once by exact Hdeps.
        split; [exact Hdeps|]. left. cbn. rewrite Hp. split; reflexivity.
      * cbn in He. rewrite Hp in He. destruct n; discriminate.
Qed.

(** ** Failure, retry and refresh *)

(** A fetch of a reachable instance that fails: only [error] and
    [loading] are written, and nothing stays in flight. *)
Lemma posts_settle_failure i n req k o message :
  reachable component i ->
  nth_error (pending i) n = Some (req, k) ->
  fails o message ->
  req = url
  /\ fire component (Settle n o) i =
     mkInstance (mkState (allPosts (cells i)) (currentPage (cells i))
                         false (Some message))
                (requests i) [] (Some []).
Proof.
  intros Hreach Hn Hfail.
  destruct (posts_settled_or_waiting_reachable i Hreach) as (Hdeps & Hstate).
  destruct Hstate as [(Hl & Hp) | (Hl & Hp)]; rewrite Hp in Hn;
    [|destruct n; discriminate].
  destruct n as [|n]; [|destruct n; discriminate].
  injection Hn as <- <-. split; [reflexivity|].
  cbn [fire]. rewrite Hp. cbn [nth_error remove_nth firstn skipn app].
  rewrite (posts_exec_resume_failure o message _ Hfail).
  cbn [cells requests pending lastDeps].
  rewrite commit_once by exact Hdeps. now rewrite Hdeps.
Qed.

(** From the error view the retry button calls [fetchPosts] again. *)
Lemma posts_retry_from_error (j : Instance State (list Post)) message :
  loading (cells j) = false -> error (cells j) = Some message ->
  message <> EmptyString -> lastDeps j = Some [] ->
  step component (Click HandleRefresh) j =
  Some (mkInstance (mkState (allPosts (cells j)) (currentPage (cells j)) true None)
                   (requests j ++ [url]) (pending j ++ [(url, resume)])
                   (Some [])).
Proof.
  intros Hl He Hm Hd. unfold step. cbn [enabled component React.render].
  rewrite (posts_render_error _ message Hl He Hm). cbn [clickable existsb Action_eqb orb].
  cbn [fire component React.handler handler handleRefresh].
  rewrite exec_fetchPosts, commit_once by exact Hd. now rewrite Hd.
Qed.

(** A refresh and the successful settlement of the fetch it started. *)
Lemma posts_refresh_success (i : Instance State (list Post)) r data :
  lastDeps i = Some [] ->
  ok r = true -> Net.body r = Parsed data ->
  let i1 := fire component (Click HandleRefresh) i in
  let i2 := fire component (Settle (length (pending i)) (Fulfilled r)) i1 in
  requests i1 = requests i ++ [url]
  /\ requests i2 = requests i ++ [url]
  /\ allPosts (cells i2) = data
  /\ currentPage (cells i2) = 1
  /\ loading (cells i2) = false.
Proof.
  intros Hd Hok Hbody i1 i2.
  assert (H1 : i1 = mkInstance
                 (mkState (allPosts (cells i)) (currentPage (cells i)) true None)
                 (requests i ++ [url]) (pending i ++ [(url, resume)]) (Some [])).
  { subst i1. cbn [fire component React.handler handler handleRefresh].
    rewrite exec_fetchPosts, commit_once by exact Hd. now rewrite Hd. }
  subst i2. rewrite H1. cbn [fire pending].
  rewrite nth_error_app2, Nat.sub_diag by lia. cbn [nth_error].
  rewrite (posts_exec_resume_success r data _ Hok Hbody).
  rewrite commit_once by reflexivity. cbn. auto.
Qed.

End PostsListFacts.

Module CommentListFacts.
Import Net Async React Failure ReactFacts CommentList.

(** ** Calling and resuming [fetchComments] *)

Lemma exec_fetchComments page (i : Instance State (list Comment)) :
  exec (fetchComments page) i =
  mkInstance (mkState (comments (cells i)) (currentPage (cells i)) true None)
             (requests i ++ [request_for page])
             (pending i ++ [(request_for page, resume)]) (lastDeps i).
Proof. reflexivity. Qed.

Lemma comments_exec_resume_failure o message (j : Instance State (list Comment)) :
  fails o message ->
  exec (resume o) j =
  mkInstance (mkState (comments (cells j)) (currentPage (cells j))
                      false (Some message))
             (requests j) (pending j) (lastDeps j).
Proof.
  intros [m | r Hok | r m Hok Hbody]; unfold resume; cbn.
  - reflexivity.
  - rewrite Hok. reflexivity.
  - rewrite Hok. cbn. unfold await_json. rewrite Hbody. reflexivity.
Qed.

Lemma comments_exec_resume_success r data (j : Instance State (list Comment)) :
  ok r = true -> Net.body r = Parsed data ->
  exec (resume (Fulfilled r)) j =
  mkInstance (mkState data (currentPage (cells j)) false (error (cells j)))
             (requests j) (pending j) (lastDeps j).
Proof.
  intros Hok Hbody. unfold resume; cbn. rewrite Hok. cbn.
  unfold await_json. rewrite Hbody. reflexivity.
Qed.

(** Resuming sends nothing, parks nothing, ends with [loading] off and
    never writes [currentPage]. *)
Lemma exec_resume_frame o (j : Instance State (list Comment)) :
  requests (exec (resume o) j) = requests j
  /\ pending (exec (resume o) j) = pending j
  /\ lastDeps (exec (resume o) j) = lastDeps j
  /\ loading (cells (exec (resume o) j)) = false
  /\ currentPage (cells (exec (resume o) j)) = currentPage (cells j).
Proof.
  destruct o as [r|m]; unfold resume; cbn; [|auto 6].
  destruct (ok r); cbn; [|auto 6].
  unfold await_json. destruct (Net.body r); cbn; auto 6.
Qed.

Lemma commit_same_page (i : Instance State (list Comment)) :
  lastDeps i = Some [currentPage (cells i)] -> commit component i = i.
Proof. intros H. now apply commit_unchanged. Qed.

Lemma commit_new_page (i : Instance State (list Comment)) page :
  lastDeps i = Some [page] -> page <> currentPage (cells i) ->
  commit component i =
  mkInstance (mkState (comments (cells i)) (currentPage (cells i)) true None)
             (requests i ++ [request_for (currentPage (cells i))])
             (pending i ++ [(request_for (currentPage (cells i)), resume)])
             (Some [currentPage (cells i)]).
Proof.
  intros H Hpage.
  rewrite (commit_changed component i [page] H) by (cbn; congruence).
  reflexivity.
Qed.

Lemma comments_mount_eq :
  mount component =
  mkInstance (mkState [] 1 true None) [request_for 1]
             [(request_for 1, resume)] (Some [1]).
Proof. reflexivity. Qed.

(** A navigation handler only ever writes [currentPage]. *)
Lemma comments_exec_navigation a (i : Instance State (list Comment)) :
  a <> HandleRefresh ->
  exists page,
    exec (handler (cells i) a) i =
    mkInstance (mkState (comments (cells i)) page
                        (loading (cells i)) (error (cells i)))
               (requests i) (pending i) (lastDeps i).
Proof.
  intros Ha. destruct i as [[cs page ld err] rs ps d].
  destruct a as [|n| |]; cbn.
  - congruence.
  - unfold goToPage.
    destruct ((n >=? 1) && (n <=? totalPages)); cbn; eauto.
  - unfold goToPreviousPage; cbn [cells currentPage].
    destruct (page >? 1); cbn; eauto.
  - unfold goToNextPage; cbn [cells currentPage].
    destruct (page <? totalPages); cbn; eauto.
Qed.

Lemma fire_refresh (i : Instance State (list Comment)) :
  lastDeps i = Some [currentPage (cells i)] ->
  fire component (Click HandleRefresh) i =
  mkInstance (mkState (comments (cells i)) (currentPage (cells i)) true None)
             (requests i ++ [request_for (currentPage (cells i))])
             (pending i ++ [(request_for (currentPage (cells i)), resume)])
             (Some [currentPage (cells i)]).
Proof.
  intros Hd.
  change (fire component (Click HandleRefresh) i)
    with (commit component (exec (fetchComments (currentPage (cells i))) i)).
  rewrite exec_fetchComments, commit_same_page by exact Hd. now rewrite Hd.
Qed.

(** A navigation call either leaves everything as it is, or moves to a
    different page and starts the fetch of that page. *)
Lemma fire_navigation a (i : Instance State (list Comment)) :
  a <> HandleRefresh ->
  lastDeps i = Some [currentPage (cells i)] ->
  fire component (Click a) i = i
  \/ exists page,
       page <> currentPage (cells i)
       /\ fire component (Click a) i =
          mkInstance (mkState (comments (cells i)) page true None)
                     (requests i ++ [request_for page])
                     (pending i ++ [(request_for page, resume)])
                     (Some [page]).
Proof.
  intros Ha Hd. destruct (comments_exec_navigation a i Ha) as [page Hexec].
  cbn [fire component React.handler]. rewrite Hexec.
  destruct (Z.eq_dec page (currentPage (cells i))) as [->|Hne].
  - left. rewrite commit_same_page by exact Hd.
    destruct i as [[cs p ld err] rs ps d]. reflexivity.
  - right. exists page. split; [exact Hne|].
    rewrite (commit_new_page _ (currentPage (cells i))) by (cbn; congruence).
    reflexivity.
Qed.

(** ** What the screen allows *)

Lemma comments_render_loading s :
  loading s = true -> render s = [Spinner "Cargando comentarios..."].
Proof. intros H. unfold render. now rewrite H. Qed.

Lemma comments_render_error s message :
  loading s = false -> error s = Some message -> message <> EmptyString ->
  render s = [Alert "Error al cargar comentarios" message;
              Button "Intentar de nuevo" HandleRefresh false].
Proof.
  intros Hl He Hm. unfold render. rewrite Hl, He.
  destruct message; [congruence | reflexivity].
Qed.

(** With nothing in flight, a navigation call either changes nothing or
    leaves the fetch of the new page in flight. *)
Ltac navigation_idle_or_waiting i Hdeps Hl Hp :=
  match goal with
  | |- settled_or_waiting (fire _ (Click ?a) _) =>
      let q := fresh "q" in
      destruct (fire_navigation a i ltac:(discriminate) Hdeps)
        as [->|(q & _ & ->)];
      [ split; [exact Hdeps|]; right; split; assumption
      | split; [reflexivity|]; left; cbn; rewrite Hp; split; reflexivity ]
  end.

Lemma comments_settled_or_waiting_reachable i :
  reachable component i -> settled_or_waiting i.
Proof.
  apply reachable_invariant.
  - rewrite comments_mount_eq. split; [reflexivity|]. left. split; reflexivity.
  - clear i. intros i e _ (Hdeps & Hstate) He.
    destruct Hstate as [(Hl & Hp) | (Hl & Hp)].
    + destruct e as [a|n o].
      * cbn in He. rewrite (comments_render_loading _ Hl) in He. discriminate.
      * cbn [fire]. rewrite Hp.
        destruct n as [|n]; [|destruct n; cbn; (split; [assumption|]); left; auto].
        cbn [nth_error remove_nth firstn skipn app].
        match goal with |- settled_or_waiting (commit _ (exec _ ?j)) =>
          destruct (exec_resume_frame o j) as (Hr & Hq & Hd & Hn & Hc);
          cbn [cells requests pending lastDeps] in Hr, Hq, Hd, Hc
        end.
        rewrite commit_same_page by congruence.
        split; [congruence|]. right. split; assumption.
    + destruct e as [a|n o].
      * destruct a as [|page| |];
          [| navigation_idle_or_waiting i Hdeps Hl Hp ..].
        rewrite fire_refresh by exact Hdeps.
        split; [reflexivity|]. left. cbn. rewrite Hp. split; reflexivity.
      * cbn in He. rewrite Hp in He. destruct n; discriminate.
Qed.

Lemma committed_reachable i :
  reachable component i -> lastDeps i = Some [currentPage (cells i)].
Proof. intros H. apply (comments_settled_or_waiting_reachable i H). Qed.

(** ** Failure, retry and refresh *)

Lemma comments_settle_failure i n req k o message :
  reachable component i ->
  nth_error (pending i) n = Some (req, k) ->
  fails o message ->
  req = request_for (currentPage (cells i))
  /\ fire component (Settle n o) i =
     mkInstance (mkState (comments (cells i)) (currentPage (cells i))
                         false (Some message))
                (requests i) [] (Some [currentPage (cells i)]).
Proof.
  intros Hreach Hn Hfail.
  destruct (comments_settled_or_waiting_reachable i Hreach) as (Hdeps & Hstate).
  destruct Hstate as [(Hl & Hp) | (Hl & Hp)]; rewrite Hp in Hn;
    [|destruct n; discriminate].
  destruct n as [|n]; [|destruct n; discriminate].
  injection Hn as <- <-. split; [reflexivity|].
  cbn [fire]. rewrite Hp. cbn [nth_error remove_nth firstn skipn app].
  rewrite (comments_exec_resume_failure o message _ Hfail).
  cbn [cells requests pending lastDeps].
  rewrite commit_same_page by exact Hdeps. now rewrite Hdeps.
Qed.

(** From the error view the retry button calls
    [fetchComments (currentPage)] again. *)
Lemma comments_retry_from_error (j : Instance State (list Comment)) message :
  loading (cells j) = false -> error (cells j) = Some message ->
  message <> EmptyString -> lastDeps j = Some [currentPage (cells j)] ->
  step component (Click HandleRefresh) j =
  Some (mkInstance
          (mkState (comments (cells j)) (currentPage (cells j)) true None)
          (requests j ++ [request_for (currentPage (cells j))])
          (pending j ++ [(request_for (currentPage (cells j)), resume)])
          (Some [currentPage (cells j)])).
Proof.
  intros Hl He Hm Hd. unfold step. cbn [enabled component React.render].
  rewrite (comments_render_error _ message Hl He Hm). cbn [clickable existsb Action_eqb orb].
  now rewrite fire_refresh.
Qed.

Lemma comments_refresh_success (i : Instance State (list Comment)) r data :
  lastDeps i = Some [currentPage (cells i)] ->
  ok r = true -> Net.body r = Parsed data ->
  let i1 := fire component (Click HandleRefresh) i in
  let i2 := fire component (Settle (length (pending i)) (Fulfilled r)) i1 in
  requests i1 = requests i ++ [request_for (currentPage (cells i))]
  /\ requests i2 = requests i ++ [request_for (currentPage (cells i))]
  /\ comments (cells i2) = data
  /\ currentPage (cells i2) = currentPage (cells i)
  /\ loading (cells i2) = false.
Proof.
  intros Hd Hok Hbody i1 i2.
  subst i2 i1. rewrite fire_refresh by exact Hd. cbn [fire pending].
  rewrite nth_error_app2, Nat.sub_diag by lia. cbn [nth_error].
  rewrite (comments_exec_resume_success r data _ Hok Hbody).
  rewrite commit_same_page by reflexivity. cbn. auto.
Qed.

(** ** One fetch per page change *)

Lemma request_for_query page :
  query_params (request_for page) =
  [("_start"%string, Js.number_to_string ((page - 1) * commentsPerPage));
   ("_limit"%string, "10"%string)].
Proof.
  unfold request_for, url.
  set (start := Js.number_to_string ((page - 1) * commentsPerPage)).
  assert (Hq : contains "?" start = false)
    by (apply NetFacts.contains_number; cbn; auto).
  assert (Ha : contains "&" start = false)
    by (apply NetFacts.contains_number; cbn; auto).
  assert (He : contains "=" start = false)
    by (apply NetFacts.contains_number; cbn; auto).
  change ("https://jsonplaceholder.typicode.com/comments?_start="
          ++ start ++ "&_limit=" ++ Js.number_to_string commentsPerPage)%string
    with ("https://jsonplaceholder.typicode.com/comments"
          ++ String "?" (("_start" ++ String "=" start)
                         ++ String "&" "_limit=10"))%string.
  unfold query_params.
  rewrite NetFacts.split_on_first by reflexivity.
  rewrite NetFacts.split_on_absent
    by (rewrite !NetFacts.contains_app; cbn; rewrite Hq; reflexivity).
  cbn [map].
  rewrite NetFacts.split_on_first
    by (rewrite NetFacts.contains_app; cbn; rewrite Ha; reflexivity).
  cbn [split_on map Ascii.eqb Bool.eqb].
  unfold key_value at 1.
  rewrite NetFacts.split_on_first by reflexivity.
  rewrite NetFacts.split_on_absent by exact He.
  reflexivity.
Qed.

Example request_for_page_3 :
  request_for 3 =
  "https://jsonplaceholder.typicode.com/comments?_start=20&_limit=10"%string.
Proof. reflexivity. Qed.

(** The instance after the first page has arrived. *)
Lemma first_page_reachable :
  reachable component
    (fire component (Settle 0 (Fulfilled (mkResponse 200 (Parsed []))))
          (mount component)).
Proof.
  apply (reachable_step component (mount component)
           (Settle 0 (Fulfilled (mkResponse 200 (Parsed []))))).
  - apply reachable_mount.
  - reflexivity.
Qed.

(** C5, as stated, fails: one fetch for every page-navigation action.
    With page 1 on screen the button of page 1 is enabled; clicking it
    calls [goToPage (1)], [currentPage] keeps its value, the effect does
    not run and no request is sent. *)
Lemma comments_fetch_per_navigation_fails :
  ~ (forall i a,
       reachable component i ->
       enabled component (Click a) i = true ->
       length (requests (fire component (Click a) i))
       = S (length (requests i))).
Proof.
  intros H.
  specialize (H _ (GoToPage 1) first_page_reachable eq_refl).
  vm_compute in H. discriminate H.
Qed.

(** C5, amended.  CommentList sends the request of page 1 at mount; from
    a reachable instance a refresh sends exactly one request, for the
    current page; a navigation call sends exactly one request, for the new
    page, when it changes [currentPage], and none when it does not.  The
    request of page [p] carries [_start = (p - 1) * commentsPerPage] and
    [_limit = 10] as its query parameters; for page 3 that is
    [_start=20&_limit=10]. *)
Theorem comments_fetch_per_page_change i a p :
  reachable component i ->
  let i' := fire component (Click a) i in
  requests (mount component) = [request_for 1]
  /\ requests i' =
     requests i ++
     match a with
     | HandleRefresh => [request_for (currentPage (cells i))]
     | _ => if currentPage (cells i') =? currentPage (cells i)
            then []
            else [request_for (currentPage (cells i'))]
     end
  /\ query_params (request_for p) =
     [("_start"%string, Js.number_to_string ((p - 1) * commentsPerPage));
      ("_limit"%string, "10"%string)]
  /\ request_for 3 =
     "https://jsonplaceholder.typicode.com/comments?_start=20&_limit=10"%string.
Proof.
  intros Hreach i'.
  pose proof (committed_reachable i Hreach) as Hd.
  split; [reflexivity|].
  split; [|split; [apply request_for_query | reflexivity]].
  assert (Hnav : a <> HandleRefresh ->
            requests i' =
            requests i ++
            (if currentPage (cells i') =? currentPage (cells i)
             then [] else [request_for (currentPage (cells i'))])).
  { intros Ha. subst i'.
    destruct (fire_navigation a i Ha Hd) as [->|(q & Hq & ->)].
    - now rewrite Z.eqb_refl, app_nil_r.
    - cbn [cells requests currentPage].
      destruct (Z.eqb_spec q (currentPage (cells i))); [contradiction|].
      reflexivity. }
  destruct a; try (apply Hnav; discriminate).
  subst i'. now rewrite fire_refresh.
Qed.

Lemma comments_fetch_per_page_change_witness :
  let i := fire component (Settle 0 (Fulfilled (mkResponse 200 (Parsed []))))
                (mount component) in
  let i' := fire component (Click (GoToPage 3)) i in
  requests (mount component) = [request_for 1]
  /\ requests i' =
     requests i ++
     (if currentPage (cells i') =? currentPage (cells i)
      then []
      else [request_for (currentPage (cells i'))])
  /\ query_params (request_for 3) =
     [("_start"%string, Js.number_to_string ((3 - 1) * commentsPerPage));
      ("_limit"%string, "10"%string)]
  /\ request_for 3 =
     "https://jsonplaceholder.typicode.com/comments?_start=20&_limit=10"%string.
Proof.
  exact (comments_fetch_per_page_change _ (GoToPage 3) 3 first_page_reachable).
Defined.

End CommentListFacts.

Module ViewFacts.
Import Net Async React Failure.

Lemma existsb_none {A} (f : A -> bool) (l : list A) :
  (forall x, In x l -> f x = false) -> existsb f l = false.
Proof.
  induction l as [|a l IH]; intros H; cbn; [reflexivity|].
  rewrite (H a) by now left. apply IH. intros x Hx. apply H. now right.
Qed.

(** The pagination block holds buttons and ellipses only. *)
Lemma pagination_controls {A} currentPage totalPages (x : Element A) :
  In x (pagination currentPage totalPages) ->
  match x with
  | Button _ _ _ | Ellipsis => True
  | _ => False
  end.
Proof.
  unfold pagination.
  repeat (rewrite in_app_iff || rewrite in_map_iff).
  intros [H|[H|[H|[H|H]]]].
  - destruct H as [<-|[]]. exact I.
  - destruct (Js.gt _ 1); [|destruct H].
    destruct H as [<-|H]; [exact I|].
    destruct (Js.gt _ 2); [|destruct H].
    destruct H as [<-|[]]. exact I.
  - destruct H as (n & <- & _). exact I.
  - destruct (Js.lt _ totalPages); [|destruct H].
    apply in_app_iff in H as [H|H].
    + destruct (Js.lt _ (totalPages - 1)); [|destruct H].
      destruct H as [<-|[]]. exact I.
    + destruct H as [<-|[]]. exact I.
  - destruct H as [<-|[]]. exact I.
Qed.

(** What the third [return] of PostsList puts on screen. *)
Lemma posts_list_view s (x : Element PostsList.Post) :
  PostsList.loading s = false -> Js.truthy (PostsList.error s) = false ->
  In x (PostsList.render s) ->
  match x with
  | Spinner _ | Alert _ _ => False
  | _ => True
  end.
Proof.
  intros Hl He. unfold PostsList.render. rewrite Hl, He.
  repeat (rewrite in_app_iff || rewrite in_map_iff).
  intros [H|[H|[H|H]]].
  - destruct H as [<-|[<-|[<-|[]]]]; exact I.
  - destruct H as (post & <- & _). exact I.
  - destruct (_ >? 1); [|destruct H].
    apply pagination_controls in H. destruct x; auto.
  - destruct (_ && _); [|destruct H].
    destruct H as [<-|[]]. exact I.
Qed.

Lemma comments_list_view s (x : Element CommentList.Comment) :
  CommentList.loading s = false -> Js.truthy (CommentList.error s) = false ->
  In x (CommentList.render s) ->
  match x with
  | Spinner _ | Alert _ _ => False
  | _ => True
  end.
Proof.
  intros Hl He. unfold CommentList.render. rewrite Hl, He.
  repeat (rewrite in_app_iff || rewrite in_map_iff).
  intros [H|[H|[H|H]]].
  - destruct H as [<-|[<-|[<-|[]]]]; exact I.
  - destruct H as (comment & <- & _). exact I.
  - destruct (_ >? 1); [|destruct H].
    apply pagination_controls in H. destruct x; auto.
  - destruct (_ && _); [|destruct H].
    destruct H as [<-|[]]. exact I.
Qed.

Lemma posts_one_view s :
  let v := PostsList.render s in
  exactly_one (shows_spinner v) (shows_alert v) (shows_list v) = true.
Proof.
  cbv zeta.
  destruct (PostsList.loading s) eqn:Hl.
  { unfold PostsList.render. rewrite Hl. reflexivity. }
  destruct (Js.truthy (PostsList.error s)) eqn:He.
  { unfold PostsList.render. rewrite Hl, He. reflexivity. }
  assert (Hs : shows_spinner (PostsList.render s) = false).
  { apply existsb_none. intros x Hx.
    apply (posts_list_view s x Hl He) in Hx. now destruct x. }
  assert (Ha : shows_alert (PostsList.render s) = false).
  { apply existsb_none. intros x Hx.
    apply (posts_list_view s x Hl He) in Hx. now destruct x. }
  rewrite Hs, Ha.
  unfold PostsList.render. rewrite Hl, He. reflexivity.
Qed.

Lemma comments_one_view s :
  let v := CommentList.render s in
  exactly_one (shows_spinner v) (shows_alert v) (shows_list v) = true.
Proof.
  cbv zeta.
  destruct (CommentList.loading s) eqn:Hl.
  { unfold CommentList.render. rewrite Hl. reflexivity. }
  destruct (Js.truthy (CommentList.error s)) eqn:He.
  { unfold CommentList.render. rewrite Hl, He. reflexivity. }
  assert (Hs : shows_spinner (CommentList.render s) = false).
  { apply existsb_none. intros x Hx.
    apply (comments_list_view s x Hl He) in Hx. now destruct x. }
  assert (Ha : shows_alert (CommentList.render s) = false).
  { apply existsb_none. intros x Hx.
    apply (comments_list_view s x Hl He) in Hx. now destruct x. }
  rewrite Hs, Ha.
  unfold CommentList.render. rewrite Hl, He. reflexivity.
Qed.

Lemma exactly_one_exclusive a b c :
  exactly_one a b c = true -> b && c = false.
Proof. destruct a, b, c; cbn; congruence. Qed.

(** C7. Whatever the cells hold, hence in every reachable state, each
    list renders exactly one of its three views: the spinner, the error
    alert, or the list; the alert and the list are never on screen
    together. *)
Theorem one_view_at_a_time
    (posts : PostsList.State) (comments : CommentList.State) :
  let vp := PostsList.render posts in
  let vc := CommentList.render comments in
  exactly_one (shows_spinner vp) (shows_alert vp) (shows_list vp) = true
  /\ shows_alert vp && shows_list vp = false
  /\ exactly_one (shows_spinner vc) (shows_alert vc) (shows_list vc) = true
  /\ shows_alert vc && shows_list vc = false.
Proof.
  cbv zeta.
  pose proof (posts_one_view posts) as Hp.
  pose proof (comments_one_view comments) as Hc.
  cbv zeta in Hp, Hc.
  repeat split; eauto using exactly_one_exclusive.
Qed.

End ViewFacts.

Module AppFacts.
Import App.

(** C9. The counter starts at 0, a click on "Incrementar contador" adds
    exactly 1 at every value, a click on "Resetear contador" sets 0, and
    from any value three increments and a reset leave 0 on display. *)
Theorem counter_increment_reset (count : Z) :
  initial = 0
  /\ onClick count Incrementar = count + 1
  /\ onClick count Resetear = 0
  /\ clicks [Incrementar; Incrementar; Incrementar; Resetear] count = 0
  /\ display (clicks [Incrementar; Incrementar; Incrementar; Resetear] count)
     = "0"%string.
Proof. repeat split. Qed.

Example counter_from_zero :
  clicks [Incrementar; Incrementar; Incrementar] initial = 3
  /\ display (clicks [Incrementar; Incrementar; Incrementar] initial) = "3"%string.
Proof. split; reflexivity. Qed.

End AppFacts.

Module NavigationFacts.
Import Net Async React ReactFacts.

(** ** CommentList: every call outside the page range changes nothing *)

Lemma comments_goToPage_out_of_range i pageNumber :
  reachable CommentList.component i ->
  pageNumber < 1 \/ CommentList.totalPages < pageNumber ->
  fire CommentList.component (Click (GoToPage pageNumber)) i = i.
Proof.
  intros Hreach Hrange.
  pose proof (CommentListFacts.committed_reachable i Hreach) as Hd.
  change (fire CommentList.component (Click (GoToPage pageNumber)) i)
    with (commit CommentList.component
            (exec (CommentList.goToPage pageNumber) i)).
  unfold CommentList.goToPage.
  replace ((pageNumber >=? 1) && (pageNumber <=? CommentList.totalPages))
    with false by (symmetry; apply andb_false_iff; lia).
  cbn [exec Async.ret]. now apply CommentListFacts.commit_same_page.
Qed.

Lemma comments_previous_at_first_page i :
  reachable CommentList.component i ->
  CommentList.currentPage (cells i) = 1 ->
  fire CommentList.component (Click GoToPreviousPage) i = i.
Proof.
  intros Hreach Hpage.
  pose proof (CommentListFacts.committed_reachable i Hreach) as Hd.
  change (fire CommentList.component (Click GoToPreviousPage) i)
    with (commit CommentList.component
            (exec (CommentList.goToPreviousPage (cells i)) i)).
  unfold CommentList.goToPreviousPage. rewrite Hpage.
  cbn [exec Async.ret Z.gtb Z.compare Pos.compare].
  now apply CommentListFacts.commit_same_page.
Qed.

Lemma comments_next_at_last_page i :
  reachable CommentList.component i ->
  CommentList.currentPage (cells i) = CommentList.totalPages ->
  fire CommentList.component (Click GoToNextPage) i = i.
Proof.
  intros Hreach Hpage.
  pose proof (CommentListFacts.committed_reachable i Hreach) as Hd.
  change (fire CommentList.component (Click GoToNextPage) i)
    with (commit CommentList.component
            (exec (CommentList.goToNextPage (cells i)) i)).
  unfold CommentList.goToNextPage. rewrite Hpage, Z.ltb_irrefl.
  cbn [exec Async.ret].
  now apply CommentListFacts.commit_same_page.
Qed.

(** ** PostsList: the two relative moves stop at the ends *)

Lemma posts_committed i :
  reachable PostsList.component i -> lastDeps i = Some [].
Proof. intros H. apply (PostsListFacts.posts_settled_or_waiting_reachable i H). Qed.

Lemma posts_previous_at_first_page i :
  reachable PostsList.component i ->
  PostsList.currentPage (cells i) = 1 ->
  fire PostsList.component (Click GoToPreviousPage) i = i.
Proof.
  intros Hreach Hpage.
  change (fire PostsList.component (Click GoToPreviousPage) i)
    with (commit PostsList.component
            (exec (PostsList.goToPreviousPage (cells i)) i)).
  unfold PostsList.goToPreviousPage. rewrite Hpage.
  cbn [exec Async.ret Z.gtb Z.compare Pos.compare].
  apply PostsListFacts.commit_once, posts_committed, Hreach.
Qed.

Lemma posts_next_at_last_page i :
  reachable PostsList.component i ->
  PostsList.currentPage (cells i) = PostsList.totalPages (cells i) ->
  fire PostsList.component (Click GoToNextPage) i = i.
Proof.
  intros Hreach Hpage.
  change (fire PostsList.component (Click GoToNextPage) i)
    with (commit PostsList.component
            (exec (PostsList.goToNextPage (cells i)) i)).
  unfold PostsList.goToNextPage. rewrite Hpage, Z.ltb_irrefl.
  cbn [exec Async.ret].
  apply PostsListFacts.commit_once, posts_committed, Hreach.
Qed.

(** C3, as stated, fails for PostsList: its [goToPage] has no range check,
    so a call writes its argument to [currentPage] whatever the cells
    hold.  With 25 posts on page 1 (3 pages), the call [goToPage (0)] the
    claim speaks of leaves page 0 and [goToPage (4)] leaves page 4:
    neither is a no-op.  (No button makes these calls; see C3 as
    amended, at the end of the file.) *)
Theorem posts_goToPage_unchecked :
  (forall i pageNumber,
     PostsList.currentPage
       (cells (fire PostsList.component (Click (GoToPage pageNumber)) i))
     = pageNumber)
  /\ (let i := fire PostsList.component
                 (Settle 0 (Scenario.accepted (Scenario.posts 25)))
                 (mount PostsList.component) in
      PostsList.currentPage (cells i) = 1
      /\ PostsList.totalPages (cells i) = 3
      /\ fire PostsList.component (Click (GoToPage 0)) i <> i
      /\ fire PostsList.component (Click (GoToPage 4)) i <> i).
Proof.
  split.
  - intros i pageNumber.
    change (fire PostsList.component (Click (GoToPage pageNumber)) i)
      with (commit PostsList.component
              (exec (PostsList.goToPage pageNumber) i)).
    unfold commit. destruct (deps_changed _ _); reflexivity.
  - cbv zeta. split; [reflexivity|]. split; [reflexivity|].
    split; intros H; apply (f_equal (fun j => PostsList.currentPage (cells j))) in H;
      vm_compute in H; discriminate H.
Qed.

End NavigationFacts.

Module FetchFacts.
Import Net Async React Failure ReactFacts Scenario.

Lemma posts_on_page_3_reachable :
  reachable PostsList.component
    (fire_all PostsList.component posts_on_page_3 (mount PostsList.component)).
Proof.
  apply reachable_fire_all; [apply reachable_mount | reflexivity].
Qed.

Lemma comments_on_page_3_reachable :
  reachable CommentList.component
    (fire_all CommentList.component comments_on_page_3
              (mount CommentList.component)).
Proof.
  apply reachable_fire_all; [apply reachable_mount | reflexivity].
Qed.

Lemma comments_waiting_for_page_3_reachable :
  reachable CommentList.component
    (fire_all CommentList.component comments_waiting_for_page_3
              (mount CommentList.component)).
Proof.
  apply reachable_fire_all; [apply reachable_mount | reflexivity].
Qed.

Lemma status_message_not_empty {A} (response : Response A) message :
  ok response = false -> fails (Fulfilled response) message ->
  message <> EmptyString.
Proof.
  intros Hok Hfails. inversion Hfails; subst; [discriminate | congruence].
Qed.

(** C6. From a reachable instance, a refresh of CommentList sends the
    request of the current page, and when it succeeds [comments] holds the
    answer and [currentPage] is the page it was; a refresh of PostsList
    sends the request of the whole collection, and when it succeeds
    [allPosts] holds the answer and [currentPage] is 1. *)
Theorem refresh_asymmetry
    (ic : Instance CommentList.State (list CommentList.Comment))
    (ip : Instance PostsList.State (list PostsList.Post))
    rc dc rp dp :
  reachable CommentList.component ic ->
  reachable PostsList.component ip ->
  ok rc = true -> Net.body rc = Parsed dc ->
  ok rp = true -> Net.body rp = Parsed dp ->
  let ic1 := fire CommentList.component (Click HandleRefresh) ic in
  let ic2 := fire CommentList.component
               (Settle (length (pending ic)) (Fulfilled rc)) ic1 in
  let ip1 := fire PostsList.component (Click HandleRefresh) ip in
  let ip2 := fire PostsList.component
               (Settle (length (pending ip)) (Fulfilled rp)) ip1 in
  (requests ic1 =
     requests ic ++ [CommentList.request_for (CommentList.currentPage (cells ic))]
   /\ requests ic2 = requests ic1
   /\ CommentList.comments (cells ic2) = dc
   /\ CommentList.currentPage (cells ic2) = CommentList.currentPage (cells ic))
  /\ (requests ip1 = requests ip ++ [PostsList.url]
      /\ requests ip2 = requests ip1
      /\ PostsList.allPosts (cells ip2) = dp
      /\ PostsList.currentPage (cells ip2) = 1).
Proof.
  intros Hic Hip Hokc Hbc Hokp Hbp.
  pose proof (CommentListFacts.comments_refresh_success ic rc dc
                (CommentListFacts.committed_reachable ic Hic) Hokc Hbc) as Hc.
  pose proof (PostsListFacts.posts_refresh_success ip rp dp
                (NavigationFacts.posts_committed ip Hip) Hokp Hbp) as Hp.
  cbv zeta in *.
  destruct Hc as (Hc1 & Hc2 & Hc3 & Hc4 & _).
  destruct Hp as (Hp1 & Hp2 & Hp3 & Hp4 & _).
  repeat split; congruence.
Qed.

Lemma refresh_asymmetry_witness :
  let ic := fire_all CommentList.component comments_on_page_3
              (mount CommentList.component) in
  let ip := fire_all PostsList.component posts_on_page_3
              (mount PostsList.component) in
  let rc := mkResponse 200 (Parsed [CommentList.mkComment 21 "a@b.c" "hi"]) in
  let rp := mkResponse 200 (Parsed (posts 12)) in
  let ic2 := fire CommentList.component (Settle 0 (Fulfilled rc))
               (fire CommentList.component (Click HandleRefresh) ic) in
  let ip2 := fire PostsList.component (Settle 0 (Fulfilled rp))
               (fire PostsList.component (Click HandleRefresh) ip) in
  (CommentList.currentPage (cells ic) = 3
   /\ CommentList.currentPage (cells ic2) = 3)
  /\ (PostsList.currentPage (cells ip) = 3
      /\ PostsList.currentPage (cells ip2) = 1).
Proof.
  pose proof (refresh_asymmetry _ _
                (mkResponse 200 (Parsed [CommentList.mkComment 21 "a@b.c" "hi"]))
                _ (mkResponse 200 (Parsed (posts 12))) _
                comments_on_page_3_reachable posts_on_page_3_reachable
                eq_refl eq_refl eq_refl eq_refl) as H.
  cbv zeta in H. destruct H as ((_ & _ & _ & Hc) & (_ & _ & _ & Hp)).
  cbv zeta. split; split; [reflexivity | exact Hc | reflexivity | exact Hp].
Defined.

(** C8. A fetch in flight of a reachable instance that fails, by a
    rejected promise or a status outside 200-299 (or a body that does not
    parse), leaves [error] holding the message, [loading] off and the
    items as they were.  A status message is never empty.  When the
    message is not empty the error alert with that message and the retry
    button are what is rendered, and a click on retry sends one more
    request, equal to the one that failed.  Stated for CommentList and for
    PostsList. *)
Theorem failed_fetch_error_and_retry
    (ic : Instance CommentList.State (list CommentList.Comment))
    (ip : Instance PostsList.State (list PostsList.Post))
    nc reqc kc oc mc np reqp kp op mp :
  reachable CommentList.component ic ->
  nth_error (pending ic) nc = Some (reqc, kc) ->
  fails oc mc ->
  reachable PostsList.component ip ->
  nth_error (pending ip) np = Some (reqp, kp) ->
  fails op mp ->
  let ic' := fire CommentList.component (Settle nc oc) ic in
  let ip' := fire PostsList.component (Settle np op) ip in
  (CommentList.error (cells ic') = Some mc
   /\ CommentList.loading (cells ic') = false
   /\ CommentList.comments (cells ic') = CommentList.comments (cells ic)
   /\ (forall r, oc = Fulfilled r -> ok r = false -> mc <> EmptyString)
   /\ (mc <> EmptyString ->
       CommentList.render (cells ic') =
         [Alert "Error al cargar comentarios" mc;
          Button "Intentar de nuevo" HandleRefresh false]
       /\ exists ic'',
            step CommentList.component (Click HandleRefresh) ic' = Some ic''
            /\ requests ic'' = requests ic' ++ [reqc]))
  /\ (PostsList.error (cells ip') = Some mp
      /\ PostsList.loading (cells ip') = false
      /\ PostsList.allPosts (cells ip') = PostsList.allPosts (cells ip)
      /\ (forall r, op = Fulfilled r -> ok r = false -> mp <> EmptyString)
      /\ (mp <> EmptyString ->
          PostsList.render (cells ip') =
            [Alert "Error al cargar posts" mp;
             Button "Intentar de nuevo" HandleRefresh false]
          /\ exists ip'',
               step PostsList.component (Click HandleRefresh) ip' = Some ip''
               /\ requests ip'' = requests ip' ++ [reqp])).
Proof.
  intros Hic Hnc Hfc Hip Hnp Hfp ic' ip'.
  destruct (CommentListFacts.comments_settle_failure ic nc reqc kc oc mc Hic Hnc Hfc)
    as (Hreqc & Hc).
  destruct (PostsListFacts.posts_settle_failure ip np reqp kp op mp Hip Hnp Hfp)
    as (Hreqp & Hp).
  fold ic' in Hc. fold ip' in Hp.
  split.
  - rewrite Hc. cbn [cells CommentList.error CommentList.loading
                      CommentList.comments requests].
    repeat split.
    + intros r -> Hok. exact (status_message_not_empty r mc Hok Hfc).
    + now apply CommentListFacts.comments_render_error.
    + eexists. split.
      * now apply CommentListFacts.comments_retry_from_error with (message := mc).
      * cbn. now rewrite Hreqc.
  - rewrite Hp. cbn [cells PostsList.error PostsList.loading
                      PostsList.allPosts requests].
    repeat split.
    + intros r -> Hok. exact (status_message_not_empty r mp Hok Hfp).
    + now apply PostsListFacts.posts_render_error.
    + eexists. split.
      * now apply PostsListFacts.posts_retry_from_error with (message := mp).
      * cbn. now rewrite Hreqp.
Qed.

Lemma failed_fetch_error_and_retry_witness :
  let ic := fire_all CommentList.component comments_waiting_for_page_3
              (mount CommentList.component) in
  let ic' := fire CommentList.component (Settle 0 (server_error [])) ic in
  let ip' := fire PostsList.component (Settle 0 (Rejected "Failed to fetch"))
               (mount PostsList.component) in
  (CommentList.error (cells ic') = Some "Error: 500"%string
   /\ CommentList.render (cells ic') =
        [Alert "Error al cargar comentarios" "Error: 500";
         Button "Intentar de nuevo" HandleRefresh false]
   /\ exists ic'',
        step CommentList.component (Click HandleRefresh) ic' = Some ic''
        /\ requests ic'' = requests ic' ++ [CommentList.request_for 3])
  /\ (PostsList.error (cells ip') = Some "Failed to fetch"%string
      /\ PostsList.render (cells ip') =
           [Alert "Error al cargar posts" "Failed to fetch";
            Button "Intentar de nuevo" HandleRefresh false]
      /\ exists ip'',
           step PostsList.component (Click HandleRefresh) ip' = Some ip''
           /\ requests ip'' = requests ip' ++ [PostsList.url]).
Proof.
  pose proof (failed_fetch_error_and_retry
                (fire_all CommentList.component comments_waiting_for_page_3
                          (mount CommentList.component))
                (mount PostsList.component)
                0%nat (CommentList.request_for 3) CommentList.resume
                (server_error []) "Error: 500"%string
                0%nat PostsList.url PostsList.resume
                (Rejected "Failed to fetch") "Failed to fetch"%string
                comments_waiting_for_page_3_reachable eq_refl
                (fails_status (mkResponse 500 (Parsed [])) eq_refl)
                (reachable_mount PostsList.component) eq_refl
                (fails_transport "Failed to fetch"%string)) as H.
  cbv zeta in H.
  destruct H as ((Hce & _ & _ & _ & Hcv) & (Hpe & _ & _ & _ & Hpv)).
  destruct (Hcv ltac:(discriminate)) as (Hcr & Hcs).
  destruct (Hpv ltac:(discriminate)) as (Hpr & Hps).
  cbv zeta. repeat split; assumption.
Defined.

(** C10. In both lists a failed fetch leaves the items and [currentPage]
    as they were: the call of the fetch function up to its [await] writes
    only [loading] and [error], and when the fetch in flight of a
    reachable instance fails, the cells afterwards are the cells before
    with [error] set to the message and [loading] cleared. *)
Theorem failed_fetch_keeps_items_and_page
    (ic : Instance CommentList.State (list CommentList.Comment))
    (ip : Instance PostsList.State (list PostsList.Post))
    nc reqc kc oc mc np reqp kp op mp :
  reachable CommentList.component ic ->
  nth_error (pending ic) nc = Some (reqc, kc) ->
  fails oc mc ->
  reachable PostsList.component ip ->
  nth_error (pending ip) np = Some (reqp, kp) ->
  fails op mp ->
  (forall page j,
     CommentList.comments (cells (exec (CommentList.fetchComments page) j))
     = CommentList.comments (cells j)
     /\ CommentList.currentPage (cells (exec (CommentList.fetchComments page) j))
        = CommentList.currentPage (cells j))
  /\ cells (fire CommentList.component (Settle nc oc) ic) =
     CommentList.mkState (CommentList.comments (cells ic))
                         (CommentList.currentPage (cells ic))
                         false (Some mc)
  /\ (forall j,
        PostsList.allPosts (cells (exec PostsList.fetchPosts j))
        = PostsList.allPosts (cells j)
        /\ PostsList.currentPage (cells (exec PostsList.fetchPosts j))
           = PostsList.currentPage (cells j))
  /\ cells (fire PostsList.component (Settle np op) ip) =
     PostsList.mkState (PostsList.allPosts (cells ip))
                       (PostsList.currentPage (cells ip))
                       false (Some mp).
Proof.
  intros Hic Hnc Hfc Hip Hnp Hfp.
  destruct (CommentListFacts.comments_settle_failure ic nc reqc kc oc mc Hic Hnc Hfc)
    as (_ & Hc).
  destruct (PostsListFacts.posts_settle_failure ip np reqp kp op mp Hip Hnp Hfp)
    as (_ & Hp).
  rewrite Hc, Hp. repeat split.
Qed.

Lemma failed_fetch_keeps_items_and_page_witness :
  let ic := fire_all CommentList.component comments_waiting_for_page_3
              (mount CommentList.component) in
  let ip := fire PostsList.component (Click HandleRefresh)
              (fire_all PostsList.component posts_on_page_3
                        (mount PostsList.component)) in
  cells (fire CommentList.component (Settle 0 (Rejected "Failed to fetch")) ic)
  = CommentList.mkState [] 3 false (Some "Failed to fetch"%string)
  /\ cells (fire PostsList.component (Settle 0 (server_error [])) ip)
     = PostsList.mkState (posts 25) 3 false (Some "Error: 500"%string).
Proof.
  assert (Hip : reachable PostsList.component
                  (fire PostsList.component (Click HandleRefresh)
                     (fire_all PostsList.component posts_on_page_3
                               (mount PostsList.component)))).
  { apply (reachable_step PostsList.component
             (fire_all PostsList.component posts_on_page_3
                       (mount PostsList.component))
             (Click HandleRefresh));
      [exact posts_on_page_3_reachable | reflexivity]. }
  pose proof (failed_fetch_keeps_items_and_page
                (fire_all CommentList.component comments_waiting_for_page_3
                          (mount CommentList.component))
                (fire PostsList.component (Click HandleRefresh)
                   (fire_all PostsList.component posts_on_page_3
                             (mount PostsList.component)))
                0%nat (CommentList.request_for 3) CommentList.resume
                (Rejected "Failed to fetch") "Failed to fetch"%string
                0%nat PostsList.url PostsList.resume
                (server_error []) "Error: 500"%string
                comments_waiting_for_page_3_reachable eq_refl
                (fails_transport "Failed to fetch"%string)
                Hip eq_refl
                (fails_status (mkResponse 500 (Parsed [])) eq_refl)) as H.
  destruct H as (_ & Hc & _ & Hp).
  cbv zeta. split; [exact Hc | exact Hp].
Defined.

End FetchFacts.

(** * Further properties of the code *)

Module WindowFacts.
Import Pagination PaginationFacts.

Ltac window_cases currentPage totalPages :=
  destruct (Z.ltb_spec
    (Z.min totalPages (Z.max 1 (currentPage - 2) + 4)
     - Z.max 1 (currentPage - 2) + 1) 5).

(** The window is a run of at most five pages inside [[1, totalPages]]
    that holds a current page in that range. *)
Lemma window_shape currentPage totalPages :
  exists first last,
    getPageNumbers currentPage totalPages = closed_range first last
    /\ 1 <= first /\ last <= totalPages /\ last - first <= 4
    /\ (1 <= currentPage <= totalPages -> first <= currentPage <= last).
Proof.
  rewrite getPageNumbers_range. cbv zeta.
  eexists _, _. split; [reflexivity|].
  window_cases currentPage totalPages; lia.
Qed.

(** X1. For any two integers the window is the run of pages from
    [max (1, min (currentPage - 2, totalPages - 4))] to
    [min (totalPages, max (currentPage + 2, 5))]: the current page with two
    neighbours on each side, shifted to stay between 1 and [totalPages]. *)
Theorem getPageNumbers_closed_form currentPage totalPages :
  getPageNumbers currentPage totalPages =
  closed_range (Z.max 1 (Z.min (currentPage - 2) (totalPages - 4)))
               (Z.min totalPages (Z.max (currentPage + 2) 5)).
Proof.
  rewrite getPageNumbers_range. cbv zeta.
  window_cases currentPage totalPages; f_equal; lia.
Qed.

(** X2. Whatever its inputs, [getPageNumbers] returns at most
    [maxPagesToShow] pages, consecutive, and none outside
    [[1, totalPages]]. *)
Theorem getPageNumbers_within_bounds currentPage totalPages :
  (length (getPageNumbers currentPage totalPages) <= 5)%nat
  /\ contiguous (getPageNumbers currentPage totalPages) = true
  /\ forall pageNumber,
       In pageNumber (getPageNumbers currentPage totalPages) ->
       1 <= pageNumber <= totalPages.
Proof.
  destruct (window_shape currentPage totalPages)
    as (first & last & -> & Hfirst & Hlast & Hwidth & _).
  split; [rewrite closed_range_length; lia|].
  split; [apply closed_range_contiguous|].
  intros n Hn. apply closed_range_In in Hn. lia.
Qed.

Lemma closed_range_NoDup first last : NoDup (closed_range first last).
Proof.
  remember (Z.to_nat (last - first + 1)) as n eqn:Hn.
  revert first Hn. induction n as [|n IH]; intros first Hn.
  - rewrite closed_range_empty by lia. constructor.
  - rewrite closed_range_cons by lia. constructor.
    + rewrite closed_range_In. lia.
    + apply IH. lia.
Qed.

(** X3. A current page between 1 and [totalPages] is in the window, once, also
    when there are fewer than five pages. *)
Theorem getPageNumbers_has_current_once currentPage totalPages :
  1 <= currentPage <= totalPages ->
  count_occ Z.eq_dec (getPageNumbers currentPage totalPages) currentPage = 1%nat.
Proof.
  intros H.
  destruct (window_shape currentPage totalPages)
    as (first & last & -> & _ & _ & _ & Hin).
  apply NoDup_count_occ'; [apply closed_range_NoDup|].
  apply closed_range_In. auto.
Qed.

Lemma getPageNumbers_has_current_once_witness :
  count_occ Z.eq_dec (getPageNumbers 2 3) 2 = 1%nat.
Proof. apply (getPageNumbers_has_current_once 2 3). lia. Defined.

End WindowFacts.

Module PaginationBlockFacts.
Import React Screen Pagination PaginationFacts WindowFacts.

Lemma index_closed_range_first first last :
  Js.index (closed_range first last) 0 =
  if first <=? last then Some first else None.
Proof.
  destruct (Z.leb_spec first last).
  - rewrite closed_range_cons by lia. reflexivity.
  - rewrite closed_range_empty by lia. reflexivity.
Qed.

Lemma index_closed_range_last first last :
  Js.index (closed_range first last)
           (Z.of_nat (length (closed_range first last)) - 1) =
  if first <=? last then Some last else None.
Proof.
  rewrite closed_range_length. unfold Js.index.
  destruct (Z.leb_spec first last).
  - destruct (Z.ltb_spec (Z.of_nat (Z.to_nat (last - first + 1)) - 1) 0); [lia|].
    unfold closed_range. rewrite nth_error_map, nth_error_seq.
    destruct (Nat.ltb_spec
      (Z.to_nat (Z.of_nat (Z.to_nat (last - first + 1)) - 1))
      (Z.to_nat (last - first + 1))); [|lia].
    cbn. f_equal. lia.
  - replace (Z.to_nat (last - first + 1)) with 0%nat by lia. reflexivity.
Qed.

Lemma page_targets_app {A} (v w : View A) :
  page_targets (v ++ w) = page_targets v ++ page_targets w.
Proof. apply flat_map_app. Qed.

Lemma page_targets_page_buttons {A} (pages : list Z) :
  page_targets
    (map (fun pageNumber =>
            @Button A (Js.number_to_string pageNumber) (GoToPage pageNumber) false)
         pages)
  = pages.
Proof.
  induction pages as [|n pages IH]; [reflexivity|].
  cbn. f_equal. exact IH.
Qed.

(** The page buttons of the block: the shortcut to page 1, the window, the
    shortcut to the last page. *)
Lemma page_targets_pagination {A} currentPage totalPages :
  let pages := getPageNumbers currentPage totalPages in
  page_targets (@pagination A currentPage totalPages) =
  (if Js.gt (Js.index pages 0) 1 then [1] else [])
  ++ pages
  ++ (if Js.lt (Js.index pages (Z.of_nat (length pages) - 1)) totalPages
      then [totalPages] else []).
Proof.
  cbv zeta. unfold pagination.
  set (pages := getPageNumbers currentPage totalPages).
  rewrite !page_targets_app, page_targets_page_buttons.
  cbn [page_targets flat_map app].
  destruct (Js.gt (Js.index pages 0) 1);
    [destruct (Js.gt (Js.index pages 0) 2)|];
    (destruct (Js.lt (Js.index pages (Z.of_nat (length pages) - 1)) totalPages);
      [destruct (Js.lt (Js.index pages (Z.of_nat (length pages) - 1))
                       (totalPages - 1))|]);
    cbn; rewrite ?app_nil_r; reflexivity.
Qed.

(** The three parts of [page_targets_pagination], with the window in its
    closed form. *)
Ltac open_page_targets currentPage totalPages :=
  rewrite page_targets_pagination; cbv zeta;
  let first := fresh "first" in
  let last := fresh "last" in
  destruct (window_shape currentPage totalPages)
    as (first & last & -> & ? & ? & ? & _);
  rewrite index_closed_range_first, index_closed_range_last;
  destruct (Z.leb_spec first last); cbn [Js.gt Js.lt];
  try destruct (Z.ltb_spec 1 first);
  try destruct (Z.ltb_spec last totalPages).

Lemma page_targets_in_range {A} currentPage totalPages pageNumber :
  In pageNumber (page_targets (@pagination A currentPage totalPages)) ->
  1 <= pageNumber <= totalPages.
Proof.
  open_page_targets currentPage totalPages;
    rewrite ?in_app_iff, ?closed_range_In; cbn [In]; lia.
Qed.

(** X5. No two page buttons of the pagination block lead to the same page. *)
Theorem pagination_targets_distinct {A} currentPage totalPages :
  NoDup (page_targets (@pagination A currentPage totalPages)).
Proof.
  open_page_targets currentPage totalPages;
    repeat (apply NoDup_app || apply closed_range_NoDup
            || (apply NoDup_cons; [intros []|]) || apply NoDup_nil);
    intros n; rewrite ?in_app_iff, ?closed_range_In; cbn [In]; lia.
Qed.

(** X6. The pagination block never holds more than eleven controls: previous,
    next, at most seven page buttons and at most two ellipses. *)
Theorem pagination_at_most_eleven {A} currentPage totalPages :
  (length (@pagination A currentPage totalPages) <= 11)%nat.
Proof.
  unfold pagination.
  assert (Hlen : (length (getPageNumbers currentPage totalPages) <= 5)%nat).
  { destruct (window_shape currentPage totalPages)
      as (first & last & -> & _ & _ & Hwidth & _).
    rewrite closed_range_length. lia. }
  set (pages := getPageNumbers currentPage totalPages) in *.
  rewrite !length_app, length_map.
  destruct (Js.gt (Js.index pages 0) 1);
    [destruct (Js.gt (Js.index pages 0) 2)|];
    (destruct (Js.lt (Js.index pages (Z.of_nat (length pages) - 1)) totalPages);
      [destruct (Js.lt (Js.index pages (Z.of_nat (length pages) - 1))
                       (totalPages - 1))|]);
    cbn [length app]; lia.
Qed.

Example pagination_eleven_controls :
  length (@pagination unit 5 10) = 11%nat.
Proof. reflexivity. Qed.

End PaginationBlockFacts.

Module PostsPagesFacts.
Import Net Async React Screen PostsList.

Lemma ceil_div_10_bounds len :
  10 * Js.ceil_div len 10 - 10 < len <= 10 * Js.ceil_div len 10.
Proof.
  unfold Js.ceil_div.
  pose proof (Z.div_mod (- len) 10 ltac:(lia)).
  pose proof (Z.mod_pos_bound (- len) 10 ltac:(lia)).
  lia.
Qed.

Lemma totalPages_bounds s :
  10 * totalPages s - 10 < Z.of_nat (length (allPosts s)) <= 10 * totalPages s.
Proof. apply ceil_div_10_bounds. Qed.

(** From page 1 on, [slice] cuts the ten posts that follow the pages
    before. *)
Lemma currentPosts_chunk s :
  1 <= currentPage s ->
  currentPosts s =
  firstn 10 (skipn (10 * Z.to_nat (currentPage s - 1)) (allPosts s)).
Proof.
  intros Hpage. unfold currentPosts, indexOfFirstPost, indexOfLastPost,
    postsPerPage, Js.slice.
  set (l := allPosts s). set (p := currentPage s) in *.
  destruct (Z.ltb_spec (p * 10 - 10) 0); [lia|].
  destruct (Z.ltb_spec (p * 10) 0); [lia|].
  replace (10 * Z.to_nat (p - 1))%nat with (Z.to_nat (p * 10 - 10)) by lia.
  destruct (Z_le_gt_dec (Z.of_nat (length l)) (p * 10 - 10)) as [Hout|Hin].
  - rewrite !skipn_all2 by lia. now rewrite !firstn_nil.
  - replace (Z.min (p * 10 - 10) (Z.of_nat (length l))) with (p * 10 - 10) by lia.
    destruct (Z_le_gt_dec (p * 10) (Z.of_nat (length l))) as [Hfull|Hpart].
    + f_equal. lia.
    + replace (Z.min (p * 10) (Z.of_nat (length l))) with (Z.of_nat (length l))
        by lia.
      rewrite !firstn_all2; try reflexivity; rewrite length_skipn; lia.
Qed.

Lemma concat_chunks {A} k (l : list A) :
  (length l <= 10 * k)%nat ->
  concat (map (fun j => firstn 10 (skipn (10 * j) l)) (seq 0 k)) = l.
Proof.
  revert l. induction k as [|k IH]; intros l Hl.
  - destruct l; [reflexivity | cbn in Hl; lia].
  - cbn [seq map concat]. rewrite <- seq_shift, map_map.
    rewrite (map_ext _ (fun j => firstn 10 (skipn (10 * j) (skipn 10 l)))).
    + rewrite IH by (rewrite length_skipn; lia).
      change (10 * 0)%nat with 0%nat. cbn [skipn].
      apply firstn_skipn.
    + intros j. rewrite skipn_skipn. f_equal. f_equal. lia.
Qed.

(** X7. The pages 1 to [totalPages] cut [allPosts] into consecutive pieces
    that together give [allPosts] back: no post is lost or shown twice. *)
Theorem pages_partition_allPosts posts ld err :
  concat (map (fun page => currentPosts (mkState posts page ld err))
              (Pagination.closed_range 1 (totalPages (mkState posts 1 ld err))))
  = posts.
Proof.
  unfold Pagination.closed_range. rewrite map_map.
  set (pages := totalPages (mkState posts 1 ld err)).
  pose proof (totalPages_bounds (mkState posts 1 ld err)) as Hb.
  fold pages in Hb. cbn [allPosts] in Hb.
  rewrite (map_ext _ (fun j => firstn 10 (skipn (10 * j) posts))).
  - apply concat_chunks. lia.
  - intros j. rewrite currentPosts_chunk by (cbn [currentPage]; lia).
    cbn [allPosts currentPage]. do 3 f_equal. lia.
Qed.

(** X8. On a page between 1 and [totalPages] the list shows between one and
    ten posts, ten on every page but the last, and as many as the range of
    the summary line ("Mostrando a-b de n posts") announces. *)
Theorem page_in_range_size s :
  1 <= currentPage s <= totalPages s ->
  (1 <= length (currentPosts s) <= 10)%nat
  /\ (currentPage s < totalPages s -> length (currentPosts s) = 10%nat)
  /\ Z.of_nat (length (currentPosts s)) =
     Z.min (indexOfLastPost s) (Z.of_nat (length (allPosts s)))
     - (indexOfFirstPost s + 1) + 1.
Proof.
  intros Hpage. pose proof (totalPages_bounds s) as Hb.
  rewrite currentPosts_chunk by lia.
  rewrite length_firstn, length_skipn.
  unfold indexOfFirstPost, indexOfLastPost, postsPerPage. lia.
Qed.

Lemma page_in_range_size_witness :
  let s := mkState (Scenario.posts 25) 3 false None in
  (1 <= length (currentPosts s) <= 10)%nat
  /\ (currentPage s < totalPages s -> length (currentPosts s) = 10%nat)
  /\ Z.of_nat (length (currentPosts s)) =
     Z.min (indexOfLastPost s) (Z.of_nat (length (allPosts s)))
     - (indexOfFirstPost s + 1) + 1.
Proof.
  apply (page_in_range_size (mkState (Scenario.posts 25) 3 false None)).
  vm_compute. split; discriminate.
Defined.

(** X9. Page 0 and every page after the last show no post. *)
Theorem page_out_of_range_empty s :
  currentPage s = 0 \/ totalPages s < currentPage s ->
  currentPosts s = [].
Proof.
  intros Hpage. pose proof (totalPages_bounds s) as Hb.
  destruct Hpage as [Hzero|Hafter].
  - unfold currentPosts, indexOfFirstPost, indexOfLastPost, postsPerPage,
      Js.slice. rewrite Hzero. cbn [Z.mul Z.sub Z.opp Z.add Z.ltb Z.compare].
    replace (Z.to_nat (Z.min 0 (Z.of_nat (length (allPosts s)))
                       - Z.max (Z.of_nat (length (allPosts s)) + -10) 0))
      with 0%nat by lia.
    reflexivity.
  - rewrite currentPosts_chunk by lia.
    rewrite skipn_all2 by lia. apply firstn_nil.
Qed.

Lemma page_out_of_range_empty_witness :
  currentPosts (mkState (Scenario.posts 25) 4 false None) = [].
Proof.
  apply (page_out_of_range_empty (mkState (Scenario.posts 25) 4 false None)).
  right. vm_compute. reflexivity.
Defined.

(** A negative page is not empty in general: [slice] counts negative
    indices from the end. *)
Example page_minus_one_of_25 :
  currentPosts (mkState (Scenario.posts 25) (-1) false None)
  = Js.slice (Scenario.posts 25) 5 15.
Proof. reflexivity. Qed.

End PostsPagesFacts.

Module ButtonFacts.
Import React Screen.

Lemma Action_eqb_eq a b : Action_eqb a b = true -> a = b.
Proof.
  destruct a, b; cbn; try discriminate; try reflexivity.
  intros H. apply Z.eqb_eq in H. now subst.
Qed.

(** A click is enabled only through an enabled button on screen. *)
Lemma clickable_button {A} a (v : View A) :
  clickable a v = true -> exists label, In (Button label a false) v.
Proof.
  unfold clickable. rewrite existsb_exists. intros (x & Hx & Hmatch).
  destruct x as [| |label onClick [|]| | | | |]; try discriminate.
  apply Action_eqb_eq in Hmatch. subst. now exists label.
Qed.

Lemma button_clickable {A} label a (v : View A) :
  In (Button label a false) v -> clickable a v = true.
Proof.
  intros H. unfold clickable. apply existsb_exists.
  exists (Button label a false). split; [exact H|].
  destruct a; cbn; auto using Z.eqb_refl.
Qed.

Lemma page_button_target {A} label pageNumber disabled (v : View A) :
  In (Button label (GoToPage pageNumber) disabled) v ->
  In pageNumber (page_targets v).
Proof.
  intros H. unfold page_targets. apply in_flat_map.
  exists (Button label (GoToPage pageNumber) disabled). split; [exact H|].
  now left.
Qed.

(** In the pagination block "Anterior" is disabled exactly on page 1,
    "Siguiente" exactly on the last page, and nothing refreshes. *)
Lemma pagination_buttons {A} currentPage totalPages label a disabled :
  In (Button label a disabled) (@pagination A currentPage totalPages) ->
  match a with
  | HandleRefresh => False
  | GoToPage _ => True
  | GoToPreviousPage => disabled = (currentPage =? 1)
  | GoToNextPage => disabled = (currentPage =? totalPages)
  end.
Proof.
  unfold pagination.
  repeat (rewrite in_app_iff || rewrite in_map_iff).
  intros [H|[H|[H|[H|H]]]].
  - destruct H as [H|[]]. injection H as <- <- <-. reflexivity.
  - destruct (Js.gt _ 1); [|destruct H].
    destruct H as [H|H]; [injection H as <- <- <-; exact I|].
    destruct (Js.gt _ 2); [|destruct H].
    destruct H as [H|[]]. discriminate H.
  - destruct H as (n & H & _). injection H as <- <- <-. exact I.
  - destruct (Js.lt _ totalPages); [|destruct H].
    apply in_app_iff in H as [H|H].
    + destruct (Js.lt _ (totalPages - 1)); [|destruct H].
      destruct H as [H|[]]. discriminate H.
    + destruct H as [H|[]]. injection H as <- <- <-. exact I.
  - destruct H as [H|[]]. injection H as <- <- <-. reflexivity.
Qed.

(** X4. Every page button of the pagination block, whatever its label and
    whatever the current page, calls [goToPage] with a page between 1 and
    [totalPages]. *)
Theorem pagination_page_buttons_in_range
    {A} currentPage totalPages label pageNumber disabled :
  In (Button label (GoToPage pageNumber) disabled)
     (@pagination A currentPage totalPages) ->
  1 <= pageNumber <= totalPages.
Proof.
  intros H. apply page_button_target in H.
  now apply PaginationBlockFacts.page_targets_in_range in H.
Qed.

Lemma pagination_page_buttons_in_range_witness :
  1 <= 10 <= 10.
Proof.
  apply (@pagination_page_buttons_in_range unit 5 10 "10" 10 false).
  vm_compute. auto 12.
Defined.

(** The buttons of the list view of PostsList: the refresh button, and the
    pagination block when there is more than one page. *)
Lemma posts_button s label a :
  In (Button label a false) (PostsList.render s) ->
  a = HandleRefresh
  \/ (PostsList.loading s = false
      /\ 1 < PostsList.totalPages s
      /\ In (Button label a false)
            (@pagination PostsList.Post (PostsList.currentPage s)
                         (PostsList.totalPages s))).
Proof.
  unfold PostsList.render.
  destruct (PostsList.loading s) eqn:Hl.
  { intros [H|[]]. discriminate H. }
  destruct (Js.truthy (PostsList.error s)).
  { intros [H|[H|[]]]; [discriminate H|]. injection H as _ <-. now left. }
  repeat (rewrite in_app_iff || rewrite in_map_iff).
  intros [H|[H|[H|H]]].
  - destruct H as [H|[H|[H|[]]]]; try discriminate H.
    injection H as _ <-. now left.
  - destruct H as (post & H & _). discriminate H.
  - destruct (Z.gtb_spec (PostsList.totalPages s) 1); [|destruct H].
    right. repeat split; [lia | exact H].
  - destruct (_ && _); [|destruct H]. destruct H as [H|[]]. discriminate H.
Qed.

Lemma comments_button s label a :
  In (Button label a false) (CommentList.render s) ->
  a = HandleRefresh
  \/ (CommentList.loading s = false
      /\ In (Button label a false)
            (@pagination CommentList.Comment (CommentList.currentPage s)
                         CommentList.totalPages)).
Proof.
  unfold CommentList.render.
  destruct (CommentList.loading s) eqn:Hl.
  { intros [H|[]]. discriminate H. }
  destruct (Js.truthy (CommentList.error s)).
  { intros [H|[H|[]]]; [discriminate H|]. injection H as _ <-. now left. }
  repeat (rewrite in_app_iff || rewrite in_map_iff).
  intros [H|[H|[H|H]]].
  - destruct H as [H|[H|[H|[]]]]; try discriminate H.
    injection H as _ <-. now left.
  - destruct H as (comment & H & _). discriminate H.
  - destruct (CommentList.totalPages >? 1); [|destruct H].
    right. split; [reflexivity | exact H].
  - destruct (_ && _); [|destruct H]. destruct H as [H|[]]. discriminate H.
Qed.

End ButtonFacts.

Module PostsReachFacts.
Import Net Async React Screen Failure ReactFacts ButtonFacts.
Import PostsList PostsListFacts PostsPagesFacts.

Lemma posts_fire_goToPage (i : Instance State (list Post)) pageNumber :
  lastDeps i = Some [] ->
  fire component (Click (GoToPage pageNumber)) i =
  mkInstance (mkState (allPosts (cells i)) pageNumber
                      (loading (cells i)) (error (cells i)))
             (requests i) (pending i) (Some []).
Proof.
  intros Hd.
  change (fire component (Click (GoToPage pageNumber)) i)
    with (commit component (exec (goToPage pageNumber) i)).
  cbn [goToPage setCurrentPage set exec Async.ret cells requests pending lastDeps].
  rewrite commit_once by exact Hd. now rewrite Hd.
Qed.

Lemma posts_fire_previous (i : Instance State (list Post)) :
  lastDeps i = Some [] -> 1 < currentPage (cells i) ->
  fire component (Click GoToPreviousPage) i =
  mkInstance (mkState (allPosts (cells i)) (currentPage (cells i) - 1)
                      (loading (cells i)) (error (cells i)))
             (requests i) (pending i) (Some []).
Proof.
  intros Hd Hpage.
  change (fire component (Click GoToPreviousPage) i)
    with (commit component (exec (goToPreviousPage (cells i)) i)).
  unfold goToPreviousPage.
  destruct (Z.gtb_spec (currentPage (cells i)) 1); [|lia].
  cbn [setCurrentPage set exec Async.ret cells requests pending lastDeps].
  rewrite commit_once by exact Hd. now rewrite Hd.
Qed.

Lemma posts_fire_next (i : Instance State (list Post)) :
  lastDeps i = Some [] -> currentPage (cells i) < totalPages (cells i) ->
  fire component (Click GoToNextPage) i =
  mkInstance (mkState (allPosts (cells i)) (currentPage (cells i) + 1)
                      (loading (cells i)) (error (cells i)))
             (requests i) (pending i) (Some []).
Proof.
  intros Hd Hpage.
  change (fire component (Click GoToNextPage) i)
    with (commit component (exec (goToNextPage (cells i)) i)).
  unfold goToNextPage.
  destruct (Z.ltb_spec (currentPage (cells i)) (totalPages (cells i))); [|lia].
  cbn [setCurrentPage set exec Async.ret cells requests pending lastDeps].
  rewrite commit_once by exact Hd. now rewrite Hd.
Qed.

Lemma posts_fire_refresh (i : Instance State (list Post)) :
  lastDeps i = Some [] ->
  fire component (Click HandleRefresh) i =
  mkInstance (mkState (allPosts (cells i)) (currentPage (cells i)) true None)
             (requests i ++ [url]) (pending i ++ [(url, resume)]) (Some []).
Proof.
  intros Hd.
  change (fire component (Click HandleRefresh) i)
    with (commit component (exec fetchPosts i)).
  rewrite exec_fetchPosts, commit_once by exact Hd. now rewrite Hd.
Qed.

(** How the fetch in flight of a reachable instance settles. *)
Lemma posts_fire_settle i n o :
  reachable component i ->
  enabled component (Settle n o) i = true ->
  loading (cells i) = true
  /\ fire component (Settle n o) i =
     exec (resume o) (mkInstance (cells i) (requests i) [] (Some [])).
Proof.
  intros Hreach He.
  destruct (posts_settled_or_waiting_reachable i Hreach) as (Hd & Hstate).
  cbn [enabled] in He.
  destruct Hstate as [(Hl & Hp)|(Hl & Hp)]; rewrite Hp in He;
    [|destruct n; discriminate].
  destruct n as [|n]; [|destruct n; discriminate].
  split; [exact Hl|].
  cbn [fire]. rewrite Hp. cbn [nth_error remove_nth firstn skipn app].
  destruct (exec_resume_quiet o
              (mkInstance (cells i) (requests i) [] (lastDeps i)))
    as (_ & _ & Hd').
  cbn [lastDeps] in Hd'. rewrite Hd in Hd' |- *.
  now apply commit_once.
Qed.

Lemma posts_resume_cases o (j : Instance State (list Post)) :
  (exists r data,
     o = Fulfilled r /\ ok r = true /\ Net.body r = Parsed data
     /\ cells (exec (resume o) j) = mkState data 1 false (error (cells j)))
  \/ (exists message,
        fails o message
        /\ cells (exec (resume o) j) =
           mkState (allPosts (cells j)) (currentPage (cells j))
                   false (Some message)).
Proof.
  destruct o as [r|m].
  - destruct (ok r) eqn:Hok.
    + destruct (Net.body r) as [data|m] eqn:Hbody.
      * left. exists r, data. repeat split; try assumption.
        now rewrite (posts_exec_resume_success r data j Hok Hbody).
      * right. exists m. split; [now apply fails_body|].
        now rewrite (posts_exec_resume_failure _ m j (fails_body r m Hok Hbody)).
    + right. eexists. split; [now apply fails_status|].
      now rewrite (posts_exec_resume_failure _ _ j (fails_status r Hok)).
  - right. exists m. split; [constructor|].
    now rewrite (posts_exec_resume_failure _ m j (fails_transport m)).
Qed.

Lemma posts_reachable_page i :
  reachable component i ->
  1 <= currentPage (cells i)
  /\ (currentPage (cells i) = 1
      \/ currentPage (cells i) <= totalPages (cells i)).
Proof.
  revert i.
  apply (reachable_invariant component
           (fun i => 1 <= currentPage (cells i)
                     /\ (currentPage (cells i) = 1
                         \/ currentPage (cells i) <= totalPages (cells i))));
    [cbn; lia|].
  intros i e Hreach (Hlow & Hhigh) He.
  pose proof (posts_settled_or_waiting_reachable i Hreach) as (Hd & _).
  destruct e as [a|n o].
  - cbn [enabled] in He. apply clickable_button in He as (label & Hin).
    destruct (posts_button _ _ _ Hin) as [->|(Hl & Hpages & Hblock)].
    { rewrite posts_fire_refresh by exact Hd. cbn. auto. }
    pose proof (pagination_buttons _ _ _ _ _ Hblock) as Hbutton.
    destruct a as [|pageNumber| |].
    + destruct Hbutton.
    + apply page_button_target, PaginationBlockFacts.page_targets_in_range
        in Hblock.
      rewrite posts_fire_goToPage by exact Hd.
      cbn [cells currentPage]. unfold totalPages in *. cbn [allPosts]. lia.
    + symmetry in Hbutton. apply Z.eqb_neq in Hbutton.
      rewrite posts_fire_previous by (exact Hd || lia).
      cbn [cells currentPage]. unfold totalPages in *. cbn [allPosts]. lia.
    + symmetry in Hbutton. apply Z.eqb_neq in Hbutton.
      rewrite posts_fire_next by (exact Hd || lia).
      cbn [cells currentPage]. unfold totalPages in *. cbn [allPosts]. lia.
  - destruct (posts_fire_settle i n o Hreach He) as (_ & ->).
    destruct (posts_resume_cases o
                (mkInstance (cells i) (requests i) [] (Some [])))
      as [(r & data & _ & _ & _ & ->)|(m & _ & ->)].
    + cbn. lia.
    + cbn [cells currentPage]. unfold totalPages in *. cbn [allPosts]. lia.
Qed.

(** X10. Through the buttons PostsList never leaves the pages it has,
    although [goToPage] itself checks nothing: in every reachable state
    [currentPage] is 1 or lies between 1 and [totalPages], and as soon as
    there are posts the current page shows at least one of them. *)
Theorem posts_page_stays_in_range i :
  reachable component i ->
  1 <= currentPage (cells i)
  /\ (currentPage (cells i) = 1
      \/ currentPage (cells i) <= totalPages (cells i))
  /\ (allPosts (cells i) <> [] -> currentPosts (cells i) <> []).
Proof.
  intros Hreach.
  destruct (posts_reachable_page i Hreach) as (Hlow & Hhigh).
  split; [exact Hlow|]. split; [exact Hhigh|].
  intros Hposts Hempty.
  apply (f_equal (@length Post)) in Hempty.
  rewrite currentPosts_chunk in Hempty by exact Hlow.
  rewrite length_firstn, length_skipn in Hempty.
  pose proof (totalPages_bounds (cells i)) as Hb.
  destruct (allPosts (cells i)) as [|post posts] eqn:Hall; [congruence|].
  cbn [length] in Hempty, Hb. lia.
Qed.

Lemma posts_page_stays_in_range_witness :
  let i := fire_all component Scenario.posts_on_page_3 (mount component) in
  1 <= currentPage (cells i)
  /\ (currentPage (cells i) = 1
      \/ currentPage (cells i) <= totalPages (cells i))
  /\ (allPosts (cells i) <> [] -> currentPosts (cells i) <> []).
Proof.
  apply (posts_page_stays_in_range
           (fire_all component Scenario.posts_on_page_3 (mount component))).
  apply reachable_fire_all; [apply reachable_mount | reflexivity].
Defined.

(** ** Requests and refresh clicks *)

Lemma posts_fire_requests e (i : Instance State (list Post)) :
  lastDeps i = Some [] ->
  Forall (fun rk => snd rk = resume) (pending i) ->
  lastDeps (fire component e i) = Some []
  /\ Forall (fun rk => snd rk = resume) (pending (fire component e i))
  /\ requests (fire component e i) =
     requests i ++ (if is_refresh e then [url] else []).
Proof.
  intros Hd Hp. destruct e as [a|n o].
  - destruct a as [|pageNumber| |].
    + rewrite posts_fire_refresh by exact Hd. cbn.
      repeat split. apply Forall_app. split; [exact Hp|]. now constructor.
    + rewrite posts_fire_goToPage by exact Hd. cbn.
      rewrite app_nil_r. auto.
    + cbn [fire component React.handler is_refresh].
      destruct (posts_exec_navigation GoToPreviousPage i ltac:(discriminate))
        as [q ->].
      rewrite commit_once by exact Hd. cbn. rewrite app_nil_r. auto.
    + cbn [fire component React.handler is_refresh].
      destruct (posts_exec_navigation GoToNextPage i ltac:(discriminate))
        as [q ->].
      rewrite commit_once by exact Hd. cbn. rewrite app_nil_r. auto.
  - cbn [fire is_refresh]. rewrite app_nil_r.
    destruct (nth_error (pending i) n) as [[req k]|] eqn:Hn; [|auto].
    assert (Hk : k = resume).
    { apply nth_error_In in Hn.
      rewrite Forall_forall in Hp. exact (Hp _ Hn). }
    subst k.
    match goal with |- context [commit _ (exec _ ?j)] =>
      destruct (exec_resume_quiet o j) as (Hr & Hq & Hd');
      cbn [requests pending lastDeps] in Hr, Hq, Hd'
    end.
    rewrite commit_once by congruence.
    repeat split; try congruence.
    rewrite Hq. now apply Forall_remove_nth.
Qed.

Lemma posts_fire_all_requests es (i : Instance State (list Post)) :
  lastDeps i = Some [] ->
  Forall (fun rk => snd rk = resume) (pending i) ->
  requests (fire_all component es i) =
  requests i ++ repeat url (refresh_clicks es).
Proof.
  revert i. induction es as [|e es IH]; intros i Hd Hp.
  - cbn. now rewrite app_nil_r.
  - destruct (posts_fire_requests e i Hd Hp) as (Hd' & Hp' & Hr).
    cbn [fire_all fold_left].
    change (fold_left (fun acc e0 => fire component e0 acc) es
                      (fire component e i))
      with (fire_all component es (fire component e i)).
    rewrite (IH _ Hd' Hp'), Hr, <- app_assoc. f_equal.
    unfold refresh_clicks. cbn [filter].
    destruct (is_refresh e); reflexivity.
Qed.

(** X11. Whatever is called and in whatever order (handlers with any argument,
    settlements of any fetch in flight), PostsList has sent one request for
    the mount and one for each refresh, all of them for the same URL. *)
Theorem posts_requests_count_refreshes (es : list (@Event (list Post))) :
  requests (fire_all component es (mount component))
  = repeat url (Datatypes.S (refresh_clicks es)).
Proof.
  rewrite posts_fire_all_requests.
  - reflexivity.
  - reflexivity.
  - rewrite posts_mount_eq. cbn. now constructor.
Qed.

(** ** Moving between pages *)

(** X12. An enabled "Siguiente" moves exactly one page forward and an enabled
    "Anterior" exactly one page back; neither sends a request nor touches
    the posts. *)
Theorem posts_enabled_arrows_move_one_page i :
  reachable component i ->
  (enabled component (Click GoToNextPage) i = true ->
   fire component (Click GoToNextPage) i =
   mkInstance (mkState (allPosts (cells i)) (currentPage (cells i) + 1)
                       false (error (cells i)))
              (requests i) [] (Some []))
  /\ (enabled component (Click GoToPreviousPage) i = true ->
      fire component (Click GoToPreviousPage) i =
      mkInstance (mkState (allPosts (cells i)) (currentPage (cells i) - 1)
                          false (error (cells i)))
                 (requests i) [] (Some [])).
Proof.
  intros Hreach.
  destruct (posts_settled_or_waiting_reachable i Hreach) as (Hd & Hstate).
  destruct (posts_reachable_page i Hreach) as (Hlow & Hhigh).
  assert (Hidle : forall label a,
            In (Button label a false) (render (cells i)) ->
            a <> HandleRefresh ->
            loading (cells i) = false /\ pending i = []
            /\ 1 < totalPages (cells i)
            /\ In (Button label a false)
                  (@pagination Post (currentPage (cells i))
                               (totalPages (cells i)))).
  { intros label a Hin Ha.
    destruct (posts_button _ _ _ Hin) as [->|(Hl & Hpages & Hblock)];
      [congruence|].
    destruct Hstate as [(Hl' & _)|(_ & Hp)]; [congruence|]. auto. }
  split; intros He; cbn [enabled] in He;
    apply clickable_button in He as (label & Hin);
    destruct (Hidle _ _ Hin ltac:(discriminate)) as (Hl & Hp & Hpages & Hblock);
    pose proof (pagination_buttons _ _ _ _ _ Hblock) as Hbutton;
    cbv beta iota in Hbutton;
    symmetry in Hbutton; apply Z.eqb_neq in Hbutton.
  - rewrite posts_fire_next by (exact Hd || lia). now rewrite Hl, Hp.
  - rewrite posts_fire_previous by (exact Hd || lia). now rewrite Hl, Hp.
Qed.

Lemma posts_enabled_arrows_move_one_page_witness :
  let i := fire_all component Scenario.posts_on_page_3 (mount component) in
  currentPage
    (cells (fire component (Click GoToPreviousPage) i)) = 2.
Proof.
  pose proof (posts_enabled_arrows_move_one_page
                (fire_all component Scenario.posts_on_page_3 (mount component))
                ltac:(apply reachable_fire_all;
                      [apply reachable_mount | reflexivity])) as [_ H].
  cbv zeta. rewrite (H eq_refl). reflexivity.
Defined.

(** X13. Forward and back again, or back and forward again, restores the
    instance exactly. *)
Theorem posts_next_previous_round_trip i :
  reachable component i ->
  (currentPage (cells i) < totalPages (cells i) ->
   fire component (Click GoToPreviousPage)
        (fire component (Click GoToNextPage) i) = i)
  /\ (1 < currentPage (cells i) <= totalPages (cells i) ->
      fire component (Click GoToNextPage)
           (fire component (Click GoToPreviousPage) i) = i).
Proof.
  intros Hreach.
  destruct (posts_settled_or_waiting_reachable i Hreach) as (Hd & _).
  destruct (posts_reachable_page i Hreach) as (Hlow & _).
  split; intros Hpage.
  - rewrite (posts_fire_next i) by (exact Hd || lia).
    rewrite posts_fire_previous by (cbn; reflexivity || lia).
    destruct i as [[posts page ld err] rs ps d]. cbn in *.
    subst d. do 2 f_equal. lia.
  - rewrite (posts_fire_previous i) by (exact Hd || lia).
    rewrite posts_fire_next
      by (cbn [cells currentPage lastDeps]; unfold totalPages in *;
          cbn [allPosts]; reflexivity || lia).
    destruct i as [[posts page ld err] rs ps d]. cbn in *.
    subst d. do 2 f_equal. lia.
Qed.

Lemma posts_next_previous_round_trip_witness :
  let i := fire_all component Scenario.posts_on_page_3 (mount component) in
  fire component (Click GoToNextPage)
       (fire component (Click GoToPreviousPage) i) = i.
Proof.
  apply (proj2 (posts_next_previous_round_trip
                  (fire_all component Scenario.posts_on_page_3 (mount component))
                  ltac:(apply reachable_fire_all;
                        [apply reachable_mount | reflexivity]))).
  vm_compute. split; [reflexivity | discriminate].
Defined.

End PostsReachFacts.

Module CommentsReachFacts.
Import Net Async React Screen Failure ReactFacts ButtonFacts.
Import CommentList CommentListFacts.

(** Where a navigation handler of CommentList can lead: the page it writes
    is again between 1 and [totalPages]. *)
Lemma comments_navigation_bounded a (i : Instance State (list Comment)) :
  a <> HandleRefresh ->
  1 <= currentPage (cells i) <= totalPages ->
  exists page,
    1 <= page <= totalPages
    /\ exec (handler (cells i) a) i =
       mkInstance (mkState (comments (cells i)) page
                           (loading (cells i)) (error (cells i)))
                  (requests i) (pending i) (lastDeps i).
Proof.
  intros Ha Hpage. destruct i as [[cs page ld err] rs ps d].
  cbn [cells currentPage] in Hpage.
  destruct a as [|n| |]; cbn [handler cells].
  - congruence.
  - unfold goToPage.
    destruct (Z.geb_spec n 1); destruct (Z.leb_spec n totalPages);
      cbn [andb]; [exists n | exists page ..];
      (split; [lia | reflexivity]).
  - unfold goToPreviousPage; cbn [currentPage].
    destruct (Z.gtb_spec page 1); [exists (page - 1) | exists page];
      (split; [lia | reflexivity]).
  - unfold goToNextPage; cbn [currentPage].
    destruct (Z.ltb_spec page totalPages);
      [exists (page + 1) | exists page]; (split; [lia | reflexivity]).
Qed.

(** What every run keeps: the page is in range, the effect has run for it,
    every fetch in flight resumes [fetchComments], and every request sent
    is the request of a page in range. *)
Lemma comments_fire_keeps e (i : Instance State (list Comment)) :
  1 <= currentPage (cells i) <= totalPages ->
  lastDeps i = Some [currentPage (cells i)] ->
  Forall (fun rk => snd rk = resume) (pending i) ->
  Forall (fun r => exists page, 1 <= page <= totalPages /\ r = request_for page)
         (requests i) ->
  let i' := fire component e i in
  1 <= currentPage (cells i') <= totalPages
  /\ lastDeps i' = Some [currentPage (cells i')]
  /\ Forall (fun rk => snd rk = resume) (pending i')
  /\ Forall (fun r => exists page, 1 <= page <= totalPages /\ r = request_for page)
            (requests i').
Proof.
  intros Hpage Hd Hp Hr. cbv zeta.
  destruct e as [a|n o].
  - destruct (Action_eqb a HandleRefresh) eqn:Ha.
    + apply Action_eqb_eq in Ha. subst a.
      rewrite fire_refresh by exact Hd. cbn [cells currentPage lastDeps
        pending requests].
      repeat split; try lia.
      * apply Forall_app. split; [exact Hp|]. now constructor.
      * apply Forall_app. split; [exact Hr|]. constructor; [|constructor].
        now exists (currentPage (cells i)).
    + assert (Hnav : a <> HandleRefresh) by (intros ->; discriminate).
      destruct (comments_navigation_bounded a i Hnav Hpage)
        as (page & Hrange & Hexec).
      cbn [fire component React.handler]. rewrite Hexec.
      destruct (Z.eq_dec page (currentPage (cells i))) as [->|Hne].
      * rewrite commit_same_page by exact Hd. cbn. auto.
      * rewrite (commit_new_page _ (currentPage (cells i)))
          by (cbn; congruence).
        cbn [cells currentPage lastDeps pending requests].
        repeat split; try lia.
        -- apply Forall_app. split; [exact Hp|]. now constructor.
        -- apply Forall_app. split; [exact Hr|]. constructor; [|constructor].
           now exists page.
  - cbn [fire].
    destruct (nth_error (pending i) n) as [[req k]|] eqn:Hn; [|auto].
    assert (Hk : k = resume).
    { apply nth_error_In in Hn.
      rewrite Forall_forall in Hp. exact (Hp _ Hn). }
    subst k.
    match goal with |- context [commit _ (exec _ ?j)] =>
      destruct (exec_resume_frame o j) as (Hr' & Hq & Hd' & _ & Hc);
      cbn [cells requests pending lastDeps] in Hr', Hq, Hd', Hc
    end.
    rewrite commit_same_page by congruence.
    rewrite Hr', Hq, Hd', Hc.
    repeat split; try lia; try assumption.
    now apply Forall_remove_nth.
Qed.

(** X14. Whatever is called and in whatever order (handlers with any argument,
    settlements of any fetch in flight), [currentPage] of CommentList stays
    between 1 and [totalPages] (50), and every request sent is the request
    of such a page: the offset is never below 0 or above 490. *)
Theorem comments_page_and_requests_in_range (es : list (@Event (list Comment))) :
  let i := fire_all component es (mount component) in
  1 <= currentPage (cells i) <= 50
  /\ Forall (fun r => exists page,
                        1 <= page <= 50
                        /\ 0 <= (page - 1) * commentsPerPage <= 490
                        /\ r = url ((page - 1) * commentsPerPage))
            (requests i).
Proof.
  cbv zeta.
  assert (H : let i := fire_all component es (mount component) in
              1 <= currentPage (cells i) <= totalPages
              /\ lastDeps i = Some [currentPage (cells i)]
              /\ Forall (fun rk => snd rk = resume) (pending i)
              /\ Forall (fun r => exists page,
                           1 <= page <= totalPages /\ r = request_for page)
                        (requests i)).
  { apply (fire_all_invariant component
             (fun i => 1 <= currentPage (cells i) <= totalPages
                       /\ lastDeps i = Some [currentPage (cells i)]
                       /\ Forall (fun rk => snd rk = resume) (pending i)
                       /\ Forall (fun r => exists page,
                                    1 <= page <= totalPages
                                    /\ r = request_for page)
                                 (requests i))
             (fun _ => True)).
    - intros i e (Hpage & Hd & Hp & Hr) _.
      exact (comments_fire_keeps e i Hpage Hd Hp Hr).
    - rewrite comments_mount_eq. cbn [cells currentPage lastDeps pending requests].
      change totalPages with 50.
      repeat split; try lia; repeat constructor.
      exists 1. split; [lia | reflexivity].
    - apply Forall_forall. auto. }
  cbv zeta in H. change totalPages with 50 in H.
  destruct H as (Hpage & _ & _ & Hr).
  split; [exact Hpage|].
  eapply Forall_impl; [|exact Hr].
  intros r (page & Hrange & ->). exists page.
  unfold request_for, commentsPerPage. repeat split; lia.
Qed.

Lemma comments_reachable_in_range i :
  reachable component i -> 1 <= currentPage (cells i) <= totalPages.
Proof.
  revert i.
  apply (reachable_invariant component
           (fun i => 1 <= currentPage (cells i) <= totalPages
                     /\ lastDeps i = Some [currentPage (cells i)]
                     /\ Forall (fun rk => snd rk = resume) (pending i)
                     /\ Forall (fun r => exists page,
                                  1 <= page <= totalPages
                                  /\ r = request_for page)
                               (requests i))).
  - rewrite comments_mount_eq. cbn [cells currentPage lastDeps pending requests].
    change totalPages with 50.
    repeat split; try lia; repeat constructor.
    exists 1. split; [lia | reflexivity].
  - intros i e _ (Hpage & Hd & Hp & Hr) _.
    exact (comments_fire_keeps e i Hpage Hd Hp Hr).
Qed.

(** X15. An enabled "Siguiente" moves exactly one page forward and an enabled
    "Anterior" exactly one page back; either one puts the spinner up and
    sends exactly one request, the one of the new page. *)
Theorem comments_enabled_arrows_fetch_next_page i :
  reachable component i ->
  (enabled component (Click GoToNextPage) i = true ->
   fire component (Click GoToNextPage) i =
   mkInstance (mkState (comments (cells i)) (currentPage (cells i) + 1) true None)
              (requests i ++ [request_for (currentPage (cells i) + 1)])
              [(request_for (currentPage (cells i) + 1), resume)]
              (Some [currentPage (cells i) + 1]))
  /\ (enabled component (Click GoToPreviousPage) i = true ->
      fire component (Click GoToPreviousPage) i =
      mkInstance (mkState (comments (cells i)) (currentPage (cells i) - 1) true None)
                 (requests i ++ [request_for (currentPage (cells i) - 1)])
                 [(request_for (currentPage (cells i) - 1), resume)]
                 (Some [currentPage (cells i) - 1])).
Proof.
  intros Hreach.
  destruct (comments_settled_or_waiting_reachable i Hreach) as (Hd & Hstate).
  pose proof (comments_reachable_in_range i Hreach) as Hrange.
  assert (Hidle : forall label a,
            In (Button label a false) (render (cells i)) ->
            a <> HandleRefresh ->
            pending i = []
            /\ In (Button label a false)
                  (@pagination Comment (currentPage (cells i)) totalPages)).
  { intros label a Hin Ha.
    destruct (comments_button _ _ _ Hin) as [->|(Hl & Hblock)]; [congruence|].
    destruct Hstate as [(Hl' & _)|(_ & Hp)]; [congruence|]. auto. }
  split; intros He; cbn [enabled] in He;
    apply clickable_button in He as (label & Hin);
    destruct (Hidle _ _ Hin ltac:(discriminate)) as (Hp & Hblock);
    pose proof (pagination_buttons _ _ _ _ _ Hblock) as Hbutton;
    cbv beta iota in Hbutton;
    symmetry in Hbutton; apply Z.eqb_neq in Hbutton.
  - change (fire component (Click GoToNextPage) i)
      with (commit component (exec (goToNextPage (cells i)) i)).
    unfold goToNextPage.
    destruct (Z.ltb_spec (currentPage (cells i)) totalPages); [|lia].
    cbn [setCurrentPage set exec Async.ret cells requests pending lastDeps].
    rewrite (commit_new_page _ (currentPage (cells i)))
      by (cbn [cells currentPage lastDeps]; (exact Hd || lia)).
    cbn [cells comments currentPage requests pending]. now rewrite Hp.
  - change (fire component (Click GoToPreviousPage) i)
      with (commit component (exec (goToPreviousPage (cells i)) i)).
    unfold goToPreviousPage.
    destruct (Z.gtb_spec (currentPage (cells i)) 1); [|lia].
    cbn [setCurrentPage set exec Async.ret cells requests pending lastDeps].
    rewrite (commit_new_page _ (currentPage (cells i)))
      by (cbn [cells currentPage lastDeps]; (exact Hd || lia)).
    cbn [cells comments currentPage requests pending]. now rewrite Hp.
Qed.

Lemma comments_enabled_arrows_fetch_next_page_witness :
  let i := fire_all component Scenario.comments_on_page_3 (mount component) in
  requests (fire component (Click GoToNextPage) i)
  = requests i ++ [request_for 4].
Proof.
  pose proof (comments_enabled_arrows_fetch_next_page
                (fire_all component Scenario.comments_on_page_3
                          (mount component))
                ltac:(apply reachable_fire_all;
                      [apply reachable_mount | reflexivity])) as [H _].
  cbv zeta. rewrite (H eq_refl). reflexivity.
Defined.

End CommentsReachFacts.

Module LoadFacts.
Import Net Async React Screen Failure ReactFacts ButtonFacts Scenario.

(** ** One fetch at a time *)

(** X16. In every reachable state of either list at most one fetch is in
    flight; one is in flight exactly while [loading] is on, and then no
    button can be clicked, so the buttons never start a second fetch before
    the first has settled. *)
Theorem one_fetch_in_flight
    (ic : Instance CommentList.State (list CommentList.Comment))
    (ip : Instance PostsList.State (list PostsList.Post)) :
  reachable CommentList.component ic ->
  reachable PostsList.component ip ->
  ((length (pending ic) <= 1)%nat
   /\ (CommentList.loading (cells ic) = true <-> pending ic <> [])
   /\ (CommentList.loading (cells ic) = true ->
       forall a, enabled CommentList.component (Click a) ic = false))
  /\ ((length (pending ip) <= 1)%nat
      /\ (PostsList.loading (cells ip) = true <-> pending ip <> [])
      /\ (PostsList.loading (cells ip) = true ->
          forall a, enabled PostsList.component (Click a) ip = false)).
Proof.
  intros Hc Hp.
  destruct (CommentListFacts.comments_settled_or_waiting_reachable ic Hc)
    as (_ & Hcs).
  destruct (PostsListFacts.posts_settled_or_waiting_reachable ip Hp)
    as (_ & Hps).
  split.
  - repeat split.
    + destruct Hcs as [(_ & ->)|(_ & ->)]; cbn; lia.
    + destruct Hcs as [(_ & ->)|(Hl & _)]; congruence.
    + destruct Hcs as [(Hl & _)|(_ & ->)]; congruence.
    + intros Hl a. cbn [enabled CommentList.component React.render].
      now rewrite (CommentListFacts.comments_render_loading _ Hl).
  - repeat split.
    + destruct Hps as [(_ & ->)|(_ & ->)]; cbn; lia.
    + destruct Hps as [(_ & ->)|(Hl & _)]; congruence.
    + destruct Hps as [(Hl & _)|(_ & ->)]; congruence.
    + intros Hl a. cbn [enabled PostsList.component React.render].
      now rewrite (PostsListFacts.posts_render_loading _ Hl).
Qed.

Lemma one_fetch_in_flight_witness :
  (length (pending (mount CommentList.component)) <= 1)%nat
  /\ (length (pending (mount PostsList.component)) <= 1)%nat.
Proof.
  pose proof (one_fetch_in_flight _ _
                (reachable_mount CommentList.component)
                (reachable_mount PostsList.component)) as ((Hc & _) & (Hp & _)).
  split; assumption.
Defined.

(** ** A fetch that succeeds *)

Lemma posts_error_none_while_loading i :
  reachable PostsList.component i ->
  PostsList.loading (cells i) = true -> PostsList.error (cells i) = None.
Proof.
  revert i.
  apply (reachable_invariant PostsList.component
           (fun i => PostsList.loading (cells i) = true ->
                     PostsList.error (cells i) = None)); [reflexivity|].
  intros i e Hreach IH He.
  pose proof (PostsListFacts.posts_settled_or_waiting_reachable i Hreach)
    as (Hd & _).
  destruct e as [a|n o].
  - destruct a as [|pageNumber| |].
    + now rewrite PostsReachFacts.posts_fire_refresh by exact Hd.
    + now rewrite PostsReachFacts.posts_fire_goToPage by exact Hd.
    + cbn [fire PostsList.component React.handler].
      destruct (PostsListFacts.posts_exec_navigation GoToPreviousPage i
                  ltac:(discriminate)) as [q ->].
      now rewrite PostsListFacts.commit_once by exact Hd.
    + cbn [fire PostsList.component React.handler].
      destruct (PostsListFacts.posts_exec_navigation GoToNextPage i
                  ltac:(discriminate)) as [q ->].
      now rewrite PostsListFacts.commit_once by exact Hd.
  - destruct (PostsReachFacts.posts_fire_settle i n o Hreach He) as (_ & ->).
    rewrite PostsListFacts.exec_resume_not_loading. discriminate.
Qed.

Lemma comments_error_none_while_loading i :
  reachable CommentList.component i ->
  CommentList.loading (cells i) = true -> CommentList.error (cells i) = None.
Proof.
  revert i.
  apply (reachable_invariant CommentList.component
           (fun i => CommentList.loading (cells i) = true ->
                     CommentList.error (cells i) = None)); [reflexivity|].
  intros i e Hreach IH He.
  pose proof (CommentListFacts.comments_settled_or_waiting_reachable i Hreach)
    as (Hd & Hstate).
  destruct e as [a|n o].
  - destruct (Action_eqb a HandleRefresh) eqn:Ha.
    + apply Action_eqb_eq in Ha. subst a.
      now rewrite CommentListFacts.fire_refresh by exact Hd.
    + assert (Hnav : a <> HandleRefresh) by (intros ->; discriminate).
      destruct (CommentListFacts.fire_navigation a i Hnav Hd)
        as [->|(q & _ & ->)]; [exact IH | reflexivity].
  - cbn [enabled] in He. cbn [fire].
    destruct (nth_error (pending i) n) as [[req k]|] eqn:Hn; [|discriminate].
    destruct Hstate as [(_ & Hp)|(_ & Hp)]; rewrite Hp in Hn;
      [|destruct n; discriminate].
    destruct n as [|n]; [|destruct n; discriminate].
    injection Hn as _ <-.
    match goal with |- context [commit _ (exec _ ?j)] =>
      destruct (CommentListFacts.exec_resume_frame o j)
        as (_ & _ & Hd' & Hl & Hc);
      cbn [cells lastDeps] in Hd', Hc
    end.
    rewrite CommentListFacts.commit_same_page by congruence.
    congruence.
Qed.

Lemma items_shown_app {A} (v w : View A) :
  items_shown (v ++ w) = items_shown v ++ items_shown w.
Proof. apply flat_map_app. Qed.

Lemma items_shown_items {A} (l : list A) : items_shown (map Item l) = l.
Proof. induction l as [|a l IH]; [reflexivity|]. cbn. now f_equal. Qed.

Lemma items_shown_pagination {A} currentPage totalPages :
  items_shown (@pagination A currentPage totalPages) = [].
Proof.
  assert (H : forall v : View A,
            (forall x, In x v ->
               match x with Button _ _ _ | Ellipsis => True | _ => False end) ->
            items_shown v = []).
  { unfold items_shown.
    induction v as [|x v IH]; intros Hv; [reflexivity|].
    cbn [flat_map]. rewrite IH by (intros y Hy; apply Hv; now right).
    specialize (Hv x (or_introl eq_refl)). now destruct x. }
  apply H. intros x. apply ViewFacts.pagination_controls.
Qed.

(** In the list view PostsList shows the posts of the current page and
    CommentList the comments it holds, in order. *)
Lemma posts_items_shown s :
  PostsList.loading s = false -> Js.truthy (PostsList.error s) = false ->
  items_shown (PostsList.render s) = PostsList.currentPosts s.
Proof.
  intros Hl He. unfold PostsList.render. rewrite Hl, He.
  rewrite !items_shown_app, items_shown_items.
  destruct (_ >? 1); [rewrite items_shown_pagination|];
    destruct (_ && _); cbn; now rewrite app_nil_r.
Qed.

Lemma comments_items_shown s :
  CommentList.loading s = false -> Js.truthy (CommentList.error s) = false ->
  items_shown (CommentList.render s) = CommentList.comments s.
Proof.
  intros Hl He. unfold CommentList.render. rewrite Hl, He.
  rewrite !items_shown_app, items_shown_items.
  destruct (_ >? 1); [rewrite items_shown_pagination|];
    destruct (_ && _); cbn; now rewrite app_nil_r.
Qed.

Lemma comments_settle_success i n r data :
  reachable CommentList.component i ->
  enabled CommentList.component (Settle n (Fulfilled r)) i = true ->
  ok r = true -> Net.body r = Parsed data ->
  fire CommentList.component (Settle n (Fulfilled r)) i =
  mkInstance (CommentList.mkState data (CommentList.currentPage (cells i))
                                  false None)
             (requests i) [] (Some [CommentList.currentPage (cells i)]).
Proof.
  intros Hreach He Hok Hbody.
  destruct (CommentListFacts.comments_settled_or_waiting_reachable i Hreach)
    as (Hd & Hstate).
  cbn [enabled] in He. cbn [fire].
  destruct (nth_error (pending i) n) as [[req k]|] eqn:Hn; [|discriminate].
  destruct Hstate as [(Hl & Hpend)|(_ & Hpend)]; rewrite Hpend in Hn;
    [|destruct n; discriminate].
  destruct n as [|n]; [|destruct n; discriminate].
  injection Hn as _ <-. rewrite Hpend.
  cbn [remove_nth firstn skipn app].
  rewrite (CommentListFacts.comments_exec_resume_success r data _ Hok Hbody).
  cbn [cells requests pending lastDeps].
  rewrite (comments_error_none_while_loading i Hreach Hl).
  rewrite CommentListFacts.commit_same_page by exact Hd.
  now rewrite Hd.
Qed.

Lemma posts_settle_success i n r data :
  reachable PostsList.component i ->
  enabled PostsList.component (Settle n (Fulfilled r)) i = true ->
  ok r = true -> Net.body r = Parsed data ->
  fire PostsList.component (Settle n (Fulfilled r)) i =
  mkInstance (PostsList.mkState data 1 false None) (requests i) [] (Some []).
Proof.
  intros Hreach He Hok Hbody.
  destruct (PostsReachFacts.posts_fire_settle i n _ Hreach He) as (Hl & ->).
  rewrite (PostsListFacts.posts_exec_resume_success r data _ Hok Hbody).
  cbn [cells requests pending lastDeps].
  now rewrite (posts_error_none_while_loading i Hreach Hl).
Qed.

(** X17. When the fetch in flight of a reachable instance is answered with a
    status in 200-299 and a body that parses, no error is left: PostsList
    holds the answer, is on page 1 and shows its first ten posts;
    CommentList holds the answer, is on the page it was and shows all of
    it. *)
Theorem fetch_success_shows_answer
    (ic : Instance CommentList.State (list CommentList.Comment))
    (ip : Instance PostsList.State (list PostsList.Post))
    nc rc dc np rp dp :
  reachable CommentList.component ic ->
  enabled CommentList.component (Settle nc (Fulfilled rc)) ic = true ->
  ok rc = true -> Net.body rc = Parsed dc ->
  reachable PostsList.component ip ->
  enabled PostsList.component (Settle np (Fulfilled rp)) ip = true ->
  ok rp = true -> Net.body rp = Parsed dp ->
  let ic' := fire CommentList.component (Settle nc (Fulfilled rc)) ic in
  let ip' := fire PostsList.component (Settle np (Fulfilled rp)) ip in
  (cells ic' =
     CommentList.mkState dc (CommentList.currentPage (cells ic)) false None
   /\ pending ic' = []
   /\ items_shown (CommentList.render (cells ic')) = dc)
  /\ (cells ip' = PostsList.mkState dp 1 false None
      /\ pending ip' = []
      /\ items_shown (PostsList.render (cells ip')) = firstn 10 dp).
Proof.
  intros Hc Hec Hokc Hbc Hp Hep Hokp Hbp ic' ip'.
  subst ic' ip'.
  rewrite (comments_settle_success ic nc rc dc Hc Hec Hokc Hbc).
  rewrite (posts_settle_success ip np rp dp Hp Hep Hokp Hbp).
  cbn [cells pending].
  repeat split.
  - now rewrite comments_items_shown.
  - rewrite posts_items_shown by reflexivity.
    rewrite PostsPagesFacts.currentPosts_chunk by (cbn; lia).
    reflexivity.
Qed.

Lemma fetch_success_shows_answer_witness :
  let ic' := fire CommentList.component
               (Settle 0 (accepted [CommentList.mkComment 1 "a@b.c" "hi"]))
               (mount CommentList.component) in
  let ip' := fire PostsList.component (Settle 0 (accepted (posts 25)))
               (mount PostsList.component) in
  items_shown (CommentList.render (cells ic'))
  = [CommentList.mkComment 1 "a@b.c" "hi"]
  /\ items_shown (PostsList.render (cells ip')) = firstn 10 (posts 25).
Proof.
  pose proof (fetch_success_shows_answer
                (mount CommentList.component) (mount PostsList.component)
                0%nat (mkResponse 200 (Parsed [CommentList.mkComment 1 "a@b.c" "hi"]))
                [CommentList.mkComment 1 "a@b.c" "hi"]
                0%nat (mkResponse 200 (Parsed (posts 25))) (posts 25)
                (reachable_mount CommentList.component) eq_refl eq_refl eq_refl
                (reachable_mount PostsList.component) eq_refl eq_refl eq_refl)
    as ((_ & _ & Hc) & (_ & _ & Hp)).
  split; [exact Hc | exact Hp].
Defined.

(** ** An empty answer *)

(** X18. After an empty answer PostsList shows its heading, the summary
    "Mostrando 1-0 de 0 posts", the refresh button and the notice, and no
    pagination.  CommentList shows its notice too, but keeps the whole
    pagination block, since its 50 pages are a constant. *)
Theorem empty_answer_views
    (ic : Instance CommentList.State (list CommentList.Comment))
    (ip : Instance PostsList.State (list PostsList.Post))
    nc rc np rp :
  reachable CommentList.component ic ->
  enabled CommentList.component (Settle nc (Fulfilled rc)) ic = true ->
  ok rc = true -> Net.body rc = Parsed [] ->
  reachable PostsList.component ip ->
  enabled PostsList.component (Settle np (Fulfilled rp)) ip = true ->
  ok rp = true -> Net.body rp = Parsed [] ->
  let ic' := fire CommentList.component (Settle nc (Fulfilled rc)) ic in
  let ip' := fire PostsList.component (Settle np (Fulfilled rp)) ip in
  CommentList.render (cells ic') =
    [Heading "Comentarios desde API";
     Summary (CommentList.summary (cells ic'));
     Button "Actualizar" HandleRefresh false]
    ++ pagination (CommentList.currentPage (cells ic)) 50
    ++ [Notice "No hay comentarios disponibles"]
  /\ PostsList.render (cells ip') =
     [Heading "Posts desde API";
      Summary "Mostrando 1-0 de 0 posts";
      Button "Actualizar" HandleRefresh false;
      Notice "No hay posts disponibles"].
Proof.
  intros Hc Hec Hokc Hbc Hp Hep Hokp Hbp ic' ip'.
  subst ic' ip'.
  rewrite (comments_settle_success ic nc rc [] Hc Hec Hokc Hbc).
  rewrite (posts_settle_success ip np rp [] Hp Hep Hokp Hbp).
  split; reflexivity.
Qed.

Lemma empty_answer_views_witness :
  PostsList.render
    (cells (fire PostsList.component (Settle 0 (accepted []))
                 (mount PostsList.component))) =
  [Heading "Posts desde API";
   Summary "Mostrando 1-0 de 0 posts";
   Button "Actualizar" HandleRefresh false;
   Notice "No hay posts disponibles"].
Proof.
  exact (proj2 (empty_answer_views
                  (mount CommentList.component) (mount PostsList.component)
                  0%nat (mkResponse 200 (Parsed []))
                  0%nat (mkResponse 200 (Parsed []))
                  (reachable_mount CommentList.component) eq_refl eq_refl eq_refl
                  (reachable_mount PostsList.component) eq_refl eq_refl eq_refl)).
Defined.

End LoadFacts.

Module PostCardFacts.
Import PostCard.

(** X19. The text of a post card is the body when the body has at most 100
    code units, and its first 100 code units followed by three dots
    otherwise: it never has more than 103, and it always begins like the
    body. *)
Theorem card_text_bounded (body : JsString) :
  (length (card_text body) <= 103)%nat
  /\ ((length body <= 100)%nat -> card_text body = body)
  /\ ((100 < length body)%nat -> length (card_text body) = 103%nat)
  /\ firstn 100 (card_text body) = firstn 100 body.
Proof.
  unfold card_text.
  destruct (Nat.ltb_spec 100 (length body)) as [Hlong|Hshort].
  - assert (Hlen : length (firstn 100 body) = 100%nat)
      by (rewrite length_firstn; lia).
    rewrite length_app, Hlen. cbn [length dots].
    repeat split; try lia.
    rewrite firstn_app, Hlen, firstn_firstn. cbn. now rewrite app_nil_r.
  - repeat split; lia.
Qed.

End PostCardFacts.

Module CounterFacts.
Import App Counter.

(** X20. After any sequence of clicks the counter holds the number of
    increments since the last reset, added to the starting value when
    there was no reset. *)
Theorem counter_counts_since_reset (l : list Action) (count : Z) :
  clicks l count =
  (if has_reset l then 0 else count) + Z.of_nat (increments_since_reset l).
Proof.
  revert count. induction l as [|a l IH]; intros count.
  - cbn. lia.
  - unfold clicks in *. cbn [fold_left]. rewrite IH.
    destruct a; cbn [onClick has_reset existsb increments_since_reset orb].
    + fold (has_reset l). destruct (has_reset l); lia.
    + fold (has_reset l). destruct (has_reset l); lia.
Qed.

Example counter_since_reset :
  clicks [Incrementar; Resetear; Incrementar; Incrementar] initial = 2.
Proof. reflexivity. Qed.

End CounterFacts.

Module RequestFacts.
Import Net React CommentList.

Lemma to_int_printable n : Z.to_int n <> Decimal.Pos Decimal.Nil
                           /\ Z.to_int n <> Decimal.Neg Decimal.Nil.
Proof.
  destruct n as [|p|p]; cbn; split; try discriminate;
    intros H; injection H as H;
    exact (DecimalPos.Unsigned.to_uint_nonnil p H).
Qed.

(** A number can be read back from its decimal text. *)
Lemma number_to_string_inj a b :
  Js.number_to_string a = Js.number_to_string b -> a = b.
Proof.
  unfold Js.number_to_string. intros H.
  apply (f_equal NilZero.int_of_string) in H.
  destruct (to_int_printable a) as [Ha1 Ha2].
  destruct (to_int_printable b) as [Hb1 Hb2].
  rewrite !NilZero.isi in H by assumption.
  injection H as H. now apply DecimalZ.to_int_inj.
Qed.

(** X21. Two pages never share a request: the request of a page determines
    the page, through its [_start] parameter. *)
Theorem request_for_determines_page p q :
  request_for p = request_for q <-> p = q.
Proof.
  split; [|now intros ->].
  intros H. apply (f_equal query_params) in H.
  rewrite !CommentListFacts.request_for_query in H.
  injection H as H. apply number_to_string_inj in H.
  unfold commentsPerPage in H. lia.
Qed.

End RequestFacts.

Module GuardFacts.
Import Net Async React ReactFacts.

(** X22. The guards of the navigation handlers: in a reachable state,
    [goToPage] of CommentList changes nothing for a page outside
    [[1, 50]] or for the page already shown, "previous" changes nothing on
    page 1 and "next" nothing on the last page, in both lists. *)
Theorem guarded_navigation_changes_nothing
    (ic : Instance CommentList.State (list CommentList.Comment))
    (ip : Instance PostsList.State (list PostsList.Post))
    pageNumber :
  reachable CommentList.component ic ->
  reachable PostsList.component ip ->
  (pageNumber < 1 \/ 50 < pageNumber ->
   fire CommentList.component (Click (GoToPage pageNumber)) ic = ic)
  /\ fire CommentList.component
          (Click (GoToPage (CommentList.currentPage (cells ic)))) ic = ic
  /\ (CommentList.currentPage (cells ic) = 1 ->
      fire CommentList.component (Click GoToPreviousPage) ic = ic)
  /\ (CommentList.currentPage (cells ic) = 50 ->
      fire CommentList.component (Click GoToNextPage) ic = ic)
  /\ (PostsList.currentPage (cells ip) = 1 ->
      fire PostsList.component (Click GoToPreviousPage) ip = ip)
  /\ (PostsList.currentPage (cells ip) = PostsList.totalPages (cells ip) ->
      fire PostsList.component (Click GoToNextPage) ip = ip).
Proof.
  intros Hc Hp.
  split; [intros H; now apply NavigationFacts.comments_goToPage_out_of_range|].
  split.
  { pose proof (CommentListFacts.committed_reachable ic Hc) as Hd.
    pose proof (CommentsReachFacts.comments_reachable_in_range ic Hc) as Hrange.
    change (fire CommentList.component
              (Click (GoToPage (CommentList.currentPage (cells ic)))) ic)
      with (commit CommentList.component
              (exec (CommentList.goToPage (CommentList.currentPage (cells ic)))
                    ic)).
    unfold CommentList.goToPage.
    destruct (Z.geb_spec (CommentList.currentPage (cells ic)) 1); [|lia].
    destruct (Z.leb_spec (CommentList.currentPage (cells ic))
                         CommentList.totalPages); [|lia].
    cbn [andb CommentList.setCurrentPage set exec Async.ret
         cells requests pending lastDeps].
    rewrite CommentListFacts.commit_same_page by exact Hd.
    destruct ic as [[cs page ld err] rs ps d]. reflexivity. }
  split; [now apply NavigationFacts.comments_previous_at_first_page|].
  split; [now apply NavigationFacts.comments_next_at_last_page|].
  split; [now apply NavigationFacts.posts_previous_at_first_page|].
  now apply NavigationFacts.posts_next_at_last_page.
Qed.

Lemma guarded_navigation_changes_nothing_witness :
  let ic := fire_all CommentList.component Scenario.comments_on_page_3
              (mount CommentList.component) in
  fire CommentList.component (Click (GoToPage 51)) ic = ic
  /\ fire CommentList.component (Click (GoToPage 3)) ic = ic.
Proof.
  pose proof (guarded_navigation_changes_nothing
                (fire_all CommentList.component Scenario.comments_on_page_3
                          (mount CommentList.component))
                (mount PostsList.component) 51
                FetchFacts.comments_on_page_3_reachable
                (reachable_mount PostsList.component)) as (H1 & H2 & _).
  split; [apply H1; lia | exact H2].
Defined.

End GuardFacts.

Module NavigationClaimFacts.
Import Net Async React Screen ReactFacts ButtonFacts.

(** C3, amended.  In a reachable state, [goToPage] of CommentList with
    page 0 or page [totalPages + 1] changes nothing, and in both lists
    "previous" on page 1 and "next" on the last page change nothing.
    [goToPage] of PostsList checks nothing; the page range is kept by its
    callers instead: every enabled page button of a reachable state calls
    it with a page between 1 and [totalPages], and that page is where the
    call leads. *)
Theorem navigation_stops_at_the_ends
    (ic : Instance CommentList.State (list CommentList.Comment))
    (ip : Instance PostsList.State (list PostsList.Post)) :
  reachable CommentList.component ic ->
  reachable PostsList.component ip ->
  (fire CommentList.component (Click (GoToPage 0)) ic = ic
   /\ fire CommentList.component
           (Click (GoToPage (CommentList.totalPages + 1))) ic = ic
   /\ (CommentList.currentPage (cells ic) = 1 ->
       fire CommentList.component (Click GoToPreviousPage) ic = ic)
   /\ (CommentList.currentPage (cells ic) = CommentList.totalPages ->
       fire CommentList.component (Click GoToNextPage) ic = ic))
  /\ ((PostsList.currentPage (cells ip) = 1 ->
       fire PostsList.component (Click GoToPreviousPage) ip = ip)
      /\ (PostsList.currentPage (cells ip) = PostsList.totalPages (cells ip) ->
          fire PostsList.component (Click GoToNextPage) ip = ip)
      /\ (forall pageNumber,
            enabled PostsList.component (Click (GoToPage pageNumber)) ip = true ->
            1 <= pageNumber <= PostsList.totalPages (cells ip)
            /\ PostsList.currentPage
                 (cells (fire PostsList.component
                              (Click (GoToPage pageNumber)) ip))
               = pageNumber)).
Proof.
  intros Hc Hp. split.
  - split; [apply NavigationFacts.comments_goToPage_out_of_range; auto; lia|].
    split; [apply NavigationFacts.comments_goToPage_out_of_range; auto; lia|].
    split; [now apply NavigationFacts.comments_previous_at_first_page|].
    now apply NavigationFacts.comments_next_at_last_page.
  - split; [now apply NavigationFacts.posts_previous_at_first_page|].
    split; [now apply NavigationFacts.posts_next_at_last_page|].
    intros pageNumber He. cbn [enabled] in He.
    apply clickable_button in He as (label & Hin).
    destruct (posts_button _ _ _ Hin) as [Hrefresh|(_ & _ & Hblock)];
      [discriminate Hrefresh|].
    apply page_button_target, PaginationBlockFacts.page_targets_in_range
      in Hblock.
    split; [exact Hblock|].
    rewrite PostsReachFacts.posts_fire_goToPage
      by apply (NavigationFacts.posts_committed ip Hp).
    reflexivity.
Qed.

Lemma navigation_stops_at_the_ends_witness :
  let ic := fire_all CommentList.component Scenario.comments_on_page_3
              (mount CommentList.component) in
  let ip := fire_all PostsList.component Scenario.posts_on_page_3
              (mount PostsList.component) in
  (fire CommentList.component (Click (GoToPage 0)) ic = ic
   /\ fire CommentList.component (Click (GoToPage 51)) ic = ic)
  /\ fire PostsList.component (Click GoToNextPage) ip = ip
  /\ (1 <= 2 <= PostsList.totalPages (cells ip)
      /\ PostsList.currentPage
           (cells (fire PostsList.component (Click (GoToPage 2)) ip)) = 2).
Proof.
  pose proof (navigation_stops_at_the_ends
                (fire_all CommentList.component Scenario.comments_on_page_3
                          (mount CommentList.component))
                (fire_all PostsList.component Scenario.posts_on_page_3
                          (mount PostsList.component))
                FetchFacts.comments_on_page_3_reachable
                FetchFacts.posts_on_page_3_reachable)
    as ((Hzero & Hlast & _) & (_ & Hnext & Hpage)).
  cbv zeta. split; [split; [exact Hzero | exact Hlast]|].
  split; [apply Hnext; reflexivity|].
  apply Hpage. reflexivity.
Defined.

End NavigationClaimFacts.
